(** * The New Relic instrumentation API ([api.js]): a shallow embedding

    The development follows the layout of [api.js]:

    - the JavaScript values the API handles, with [ToBoolean] and [ToString];
    - the runtime services the file calls into ([Buffer], base64, [util.format],
      [JSON.stringify]);
    - the agent, its configuration and the current transaction;
    - the seven exported operations and the helper [_rumObfuscate];
    - the properties of the operations. *)

From Stdlib Require Import String Ascii List Bool Arith NArith ZArith Lia DecimalString.
Import ListNotations.

Local Open Scope list_scope.
Local Open Scope string_scope.

(* ================================================================== *)
(** * JavaScript values *)
(* ================================================================== *)

(** Strings are sequences of code units; the model keeps the units below 256
    (the Latin-1 range), which a Rocq [string] holds one per character.
    Numbers are the integer-valued ones: millisecond counts and the failure
    codes of the browser timing header. *)
Inductive value : Type :=
| VUndefined
| VNull
| VBool (b : bool)
| VNumber (n : Z)
| VString (s : string).

(** [ToBoolean]: what [!x] and [x || y] look at. *)
Definition ToBoolean (v : value) : bool :=
  match v with
  | VUndefined | VNull => false
  | VBool b => b
  | VNumber n => negb (n =? 0)%Z
  | VString s => negb (s =? "")
  end.

(** [ToString] of an integer-valued number: decimal digits, [-] for
    negatives. *)
Definition Number_toString (n : Z) : string :=
  NilZero.string_of_int (Z.to_int n).

(** [ToString]: what [+] applies to a non-string operand beside a string,
    and what [String(x)] returns. *)
Definition ToString (v : value) : string :=
  match v with
  | VUndefined => "undefined"
  | VNull => "null"
  | VBool true => "true"
  | VBool false => "false"
  | VNumber n => Number_toString n
  | VString s => s
  end.

(** A field declared [string?]: [None] when the property is unset. *)
Definition of_field (f : option string) : value :=
  match f with
  | Some s => VString s
  | None => VUndefined
  end.

(** The string held by a [string?] field when the field is truthy: the
    value that survives [if (!x) return ...]. *)
Definition truthy_field (f : option string) : option string :=
  match f with
  | Some s => if ToBoolean (VString s) then Some s else None
  | None => None
  end.

(** What a call can do: return a value or throw. *)
Inductive exn : Type :=
| TypeError.

Inductive outcome (A : Type) : Type :=
| Return (a : A)
| Throw (e : exn).
Arguments Return {A} a.
Arguments Throw {A} e.

(* ================================================================== *)
(** * Runtime services *)
(* ================================================================== *)

(** ** Buffers *)

(** A [Buffer] is a sequence of octets. *)
Definition byte : Type := ascii.
Definition Buffer : Type := list byte.

(** [new Buffer(string)] encodes the string as UTF-8: one octet for a code
    unit below 128, two octets for the others of the modelled range. *)
Definition utf8_unit (c : ascii) : list byte :=
  let n := N_of_ascii c in
  if (n <? 128)%N then [c]
  else [ascii_of_N (N.lor 192 (N.shiftr n 6)); ascii_of_N (N.lor 128 (N.land n 63))].

Fixpoint Buffer_from (s : string) : Buffer :=
  match s with
  | EmptyString => []
  | String c rest => (utf8_unit c ++ Buffer_from rest)%list
  end.

(** [buffer.toString('utf8')], for the octet sequences that decode to code
    units of the modelled range; [None] for the others. *)
Fixpoint Buffer_toString_utf8 (bs : Buffer) : option string :=
  match bs with
  | [] => Some ""
  | b :: rest =>
      let n := N_of_ascii b in
      if (n <? 128)%N then option_map (String b) (Buffer_toString_utf8 rest)
      else
        match rest with
        | b2 :: rest2 =>
            let n2 := N_of_ascii b2 in
            let u := N.lor (N.shiftl (N.land n 31) 6) (N.land n2 63) in
            if ((N.land n 224 =? 192) && (N.land n2 192 =? 128)
                && (128 <=? u) && (u <? 256))%N
            then option_map (String (ascii_of_N u)) (Buffer_toString_utf8 rest2)
            else None
        | [] => None
        end
  end.

(** [a ^ b] stored into a buffer cell: the cell keeps the low eight bits. *)
Definition xor_store (b : byte) (code : N) : byte :=
  ascii_of_N (N.lxor (N_of_ascii b) code).

(** [s[i]] of a string: [None] is [undefined]. *)
Definition string_at (s : string) (i : nat) : option ascii := String.get i s.

(** [c.charCodeAt(0)] of a one-unit string. *)
Definition charCodeAt0 (c : ascii) : N := N_of_ascii c.

(** ** Base64 *)

Definition b64_alphabet : string :=
  "ABCDEFGHIJKLMNOPQRSTUVWXYZabcdefghijklmnopqrstuvwxyz0123456789+/".

Definition b64_pad : ascii := "="%char.

Definition b64_char (n : N) : ascii :=
  match String.get (N.to_nat n) b64_alphabet with
  | Some c => c
  | None => b64_pad
  end.

Fixpoint index_in (c : ascii) (s : string) : option nat :=
  match s with
  | EmptyString => None
  | String d rest =>
      if Ascii.eqb c d then Some 0 else option_map S (index_in c rest)
  end.

Definition b64_value (c : ascii) : option N :=
  option_map N.of_nat (index_in c b64_alphabet).

(** [buffer.toString('base64')]: three octets give four characters, a tail
    of one or two octets is padded with [=]. *)
Fixpoint base64_encode (bs : Buffer) : string :=
  match bs with
  | [] => ""
  | [a] =>
      let n := (N_of_ascii a * 65536)%N in
      String (b64_char (n / 262144))
        (String (b64_char ((n / 4096) mod 64))
           (String b64_pad (String b64_pad "")))
  | [a; b] =>
      let n := (N_of_ascii a * 65536 + N_of_ascii b * 256)%N in
      String (b64_char (n / 262144))
        (String (b64_char ((n / 4096) mod 64))
           (String (b64_char ((n / 64) mod 64)) (String b64_pad "")))
  | a :: b :: c :: rest =>
      let n := (N_of_ascii a * 65536 + N_of_ascii b * 256 + N_of_ascii c)%N in
      String (b64_char (n / 262144))
        (String (b64_char ((n / 4096) mod 64))
           (String (b64_char ((n / 64) mod 64))
              (String (b64_char (n mod 64)) (base64_encode rest))))
  end.

(** [new Buffer(text, 'base64')] on padded base64 text; [None] when the
    text is not of that form. *)
Fixpoint base64_decode (s : string) : option Buffer :=
  match s with
  | EmptyString => Some []
  | String c1 (String c2 (String c3 (String c4 rest))) =>
      match b64_value c1, b64_value c2 with
      | Some v1, Some v2 =>
          if Ascii.eqb c4 b64_pad && (rest =? "") then
            if Ascii.eqb c3 b64_pad then
              let n := (v1 * 262144 + v2 * 4096)%N in
              Some [ascii_of_N (n / 65536)]
            else
              match b64_value c3 with
              | Some v3 =>
                  let n := (v1 * 262144 + v2 * 4096 + v3 * 64)%N in
                  Some [ascii_of_N (n / 65536); ascii_of_N ((n / 256) mod 256)]
              | None => None
              end
          else
            match b64_value c3, b64_value c4, base64_decode rest with
            | Some v3, Some v4, Some bs =>
                let n := (v1 * 262144 + v2 * 4096 + v3 * 64 + v4)%N in
                Some (ascii_of_N (n / 65536)
                        :: ascii_of_N ((n / 256) mod 256)
                        :: ascii_of_N (n mod 256) :: bs)
            | _, _, _ => None
            end
      | _, _ => None
      end
  | _ => None
  end.

(** ** [util.format] *)

(** [util.format(f, ...args)] for the directives [api.js] uses: [%s] takes
    the next argument through [String], [%%] is a literal percent sign, and
    a directive with no argument left stays as it is. Returns the text and
    the arguments not consumed. *)
Fixpoint format_directives (f : string) (args : list value) : string * list value :=
  match f with
  | EmptyString => ("", args)
  | String c tail =>
      match tail with
      | String x rest =>
          if Ascii.eqb c "%" && Ascii.eqb x "%" then
            let (r, a) := format_directives rest args in (String "%" r, a)
          else if Ascii.eqb c "%" && Ascii.eqb x "s" then
            match args with
            | v :: args' =>
                let (r, a) := format_directives rest args' in (ToString v ++ r, a)
            | [] =>
                let (r, a) := format_directives rest [] in (String "%" (String "s" r), a)
            end
          else
            let (r, a) := format_directives tail args in (String c r, a)
      | EmptyString => (String c "", args)
      end
  end.

(** Arguments left over are appended, each after a space. *)
Definition util_format (f : string) (args : list value) : string :=
  let (r, left) := format_directives f args in
  fold_left (fun acc x => acc ++ " " ++ ToString x) left r.

(** ** [JSON.stringify] *)

Definition dquote : ascii := ascii_of_nat 34.
Definition backslash : ascii := ascii_of_nat 92.
Definition newline : ascii := ascii_of_nat 10.

Definition hex_digit (n : N) : ascii :=
  match String.get (N.to_nat n) "0123456789abcdef" with
  | Some c => c
  | None => "0"%char
  end.

(** The JSON escape of one code unit. *)
Definition json_escape (c : ascii) : string :=
  let n := N_of_ascii c in
  if Ascii.eqb c dquote then String backslash (String dquote "")
  else if Ascii.eqb c backslash then String backslash (String backslash "")
  else if (n =? 8)%N then String backslash "b"
  else if (n =? 9)%N then String backslash "t"
  else if (n =? 10)%N then String backslash "n"
  else if (n =? 12)%N then String backslash "f"
  else if (n =? 13)%N then String backslash "r"
  else if (n <? 32)%N then
    String backslash
      (String "u" (String "0" (String "0"
         (String (hex_digit (n / 16)) (String (hex_digit (n mod 16)) "")))))
  else String c "".

Fixpoint json_escape_string (s : string) : string :=
  match s with
  | EmptyString => ""
  | String c rest => json_escape c ++ json_escape_string rest
  end.

Definition json_quote (s : string) : string :=
  String dquote (json_escape_string s ++ String dquote "").

(** The JSON text of a value; [None] for [undefined], whose property is
    left out of the enclosing object. *)
Definition json_value (v : value) : option string :=
  match v with
  | VUndefined => None
  | VNull => Some "null"
  | VBool true => Some "true"
  | VBool false => Some "false"
  | VNumber n => Some (Number_toString n)
  | VString s => Some (json_quote s)
  end.

(** An object literal: its properties in the order they are written. *)
Definition object : Type := list (string * value).

(** The properties that are serialized, each with the text of its value. *)
Fixpoint json_members (o : object) : list (string * string) :=
  match o with
  | [] => []
  | (k, v) :: rest =>
      match json_value v with
      | Some t => (k, t) :: json_members rest
      | None => json_members rest
      end
  end.

Fixpoint spaces (n : nat) : string :=
  match n with
  | O => ""
  | S m => String " " (spaces m)
  end.

Fixpoint join (sep : string) (parts : list string) : string :=
  match parts with
  | [] => ""
  | [p] => p
  | p :: rest => p ++ sep ++ join sep rest
  end.

(** [JSON.stringify(o, null, space)] of an object whose properties hold
    primitive values; [space] is the indentation width (at most 10 is
    used). *)
Definition JSON_stringify (o : object) (space : nat) : string :=
  let gap := spaces (Nat.min 10 space) in
  let colon := if (gap =? "") then ":" else ": " in
  let partial := map (fun kt => json_quote (fst kt) ++ colon ++ snd kt) (json_members o) in
  match partial with
  | [] => "{}"
  | _ =>
      if (gap =? "") then "{" ++ join "," partial ++ "}"
      else
        "{" ++ String newline gap
            ++ join ("," ++ String newline gap) partial
            ++ String newline "}"
  end.

(* ================================================================== *)
(** * The agent *)
(* ================================================================== *)

(** Modelled from the spec: [conf.browser_monitoring]; the configuration
    store is another file of the agent, the fields and their types are
    those of the spec's data model. *)
Record BrowserMonitoring : Type := {
  enable : bool;
  browser_key : option string;
  js_agent_file : value;
  js_agent_loader : value;
  beacon : value;
  error_beacon : value;
  debug : bool
}.

(** Modelled from the spec: [agent.config], with the fields of the spec's
    data model. *)
Record Config : Type := {
  license_key : string;
  application_id : option string;
  browser_monitoring : option BrowserMonitoring
}.

(** Modelled from the spec: the transaction object, which the tracer
    (another file of the agent) creates, with the fields of the spec's data
    model. [timer_getDurationInMillis] is what [timer.getDurationInMillis()]
    answers at the time of the call. *)
Record Transaction : Type := {
  partialName : option string;
  forceIgnore : value;
  url : option string;
  verb : option string;
  queueTime : Z;
  timer_getDurationInMillis : Z
}.

Definition set_partialName (s : string) (t : Transaction) : Transaction :=
  {| partialName := Some s;
     forceIgnore := forceIgnore t;
     url := url t;
     verb := verb t;
     queueTime := queueTime t;
     timer_getDurationInMillis := timer_getDurationInMillis t |}.

Definition set_forceIgnore (v : value) (t : Transaction) : Transaction :=
  {| partialName := partialName t;
     forceIgnore := v;
     url := url t;
     verb := verb t;
     queueTime := queueTime t;
     timer_getDurationInMillis := timer_getDurationInMillis t |}.

(** A URL pattern: a [RegExp] object, or a string (or whatever else the
    caller passes). *)
Inductive pattern : Type :=
| RegExp (source : string)
| Plain (v : value).

Definition pattern_ToBoolean (p : pattern) : bool :=
  match p with
  | RegExp _ => true
  | Plain v => ToBoolean v
  end.

Inductive level : Type := Trace | Warn | Error.

(** What an operation does to its collaborators, in the order it does it. *)
Inductive event : Type :=
| Log (lvl : level) (args : list value)
| WritePartialName (s : string)
| WriteForceIgnore (v : value)
| AddSimple (p : pattern) (replacement : value)
| ErrorsAdd (t : option Transaction) (error : value).

(** The agent an [API] object holds: its configuration, the transaction
    the tracer has for the running context (if any), and the journal of
    what was done so far. *)
Record Agent : Type := {
  config : Config;
  current : option Transaction;
  journal : list event
}.

(** ** Operations in the agent's state *)

Definition M (A : Type) : Type := Agent -> outcome A * Agent.

Definition ret {A} (a : A) : M A := fun w => (Return a, w).

Definition bind {A B} (m : M A) (k : A -> M B) : M B :=
  fun w =>
    match m w with
    | (Return a, w') => k a w'
    | (Throw e, w') => (Throw e, w')
    end.

(** A call that only computes. *)
Definition lift {A} (o : outcome A) : M A := fun w => (o, w).

Declare Scope api_scope.
Delimit Scope api_scope with api.
Notation "x <- m ;; k" := (bind m (fun x => k))
  (at level 61, m at next level, right associativity) : api_scope.
Notation "m ;;; k" := (bind m (fun _ => k))
  (at level 61, right associativity) : api_scope.
Local Open Scope api_scope.

Definition emit (e : event) : M unit :=
  fun w => (Return tt,
            {| config := config w; current := current w;
               journal := (journal w ++ [e])%list |}).

(** The collaborators the API calls into (the tracer, the logger, the rule
    normalizer and the error collector) are other files of the agent. Each
    call is recorded in the journal; the lookups answer from the agent's
    state. *)

(** [this.agent.config] *)
Definition agent_config : M Config := fun w => (Return (config w), w).

(** Modelled from the spec: [this.agent.tracer.getTransaction()], the
    transaction of the running context, if there is one. *)
Definition tracer_getTransaction : M (option Transaction) :=
  fun w => (Return (current w), w).

(** Modelled from the spec: [this.agent.getTransaction()]; the spec has
    one lookup of the current transaction, so the agent hands out the
    tracer's. *)
Definition agent_getTransaction : M (option Transaction) := tracer_getTransaction.

(** Modelled from the spec: [logger.<level>(...args)] emits one log
    record and returns. *)
Definition logger (lvl : level) (args : list value) : M unit := emit (Log lvl args).

(** An assignment to a field of the transaction object; assigning to a
    field of nothing throws. *)
Definition assign (upd : Transaction -> Transaction) (e : event) : M unit :=
  fun w =>
    match current w with
    | Some t =>
        (Return tt,
         {| config := config w; current := Some (upd t);
            journal := (journal w ++ [e])%list |})
    | None => (Throw TypeError, w)
    end.

(** Modelled from the spec:
    [this.agent.userNormalizer.addSimple(pattern, replacement)] registers
    one rule. *)
Definition userNormalizer_addSimple (p : pattern) (replacement : value) : M unit :=
  emit (AddSimple p replacement).

(** Modelled from the spec: [this.agent.errors.add(transaction, error)]
    takes the error, with the transaction or without. *)
Definition errors_add (t : option Transaction) (error : value) : M unit :=
  emit (ErrorsAdd t error).

(* ================================================================== *)
(** * [api.js] *)
(* ================================================================== *)

(** Modelled from the spec: the metric-name categories of
    [lib/metrics/names], which is not part of the sources at hand; the
    spec gives the prefixes as [Custom/] and [Controller/]. *)
Module NAMES.
Definition CUSTOM : string := "Custom".
Definition CONTROLLER : string := "Controller".
End NAMES.

Definition RUM_STUB : string :=
  "<script type='text/javascript'>window.NREUM||(NREUM={});" ++
  "NREUM.info = %s; %s</script>".

Definition RUM_ISSUES : list string := [
  "NREUM: no browser monitoring headers generated; disabled";
  "NREUM: transaction missing while generating browser monitoring headers";
  "NREUM: conf.browser_monitoring missing, something is probably wrong";
  "NREUM: browser_monitoring headers need a transaction name";
  "NREUM: browser_monitoring requires valid application_id";
  "NREUM: browser_monitoring requires valid browser_key"
]%list.

(** The loop of [_rumObfuscate], from index [i] on, over the cells not yet
    visited. *)
Fixpoint xor_loop (bytes : Buffer) (i : nat) (license_key : string) : outcome Buffer :=
  match bytes with
  | [] => Return []
  | b :: rest =>
      match string_at license_key (i mod 13) with
      | None => Throw TypeError
      | Some k =>
          match xor_loop rest (S i) license_key with
          | Return out => Return (xor_store b (charCodeAt0 k) :: out)
          | Throw e => Throw e
          end
      end
  end.

Definition _rumObfuscate (str : string) (license_key : string) : outcome string :=
  let bytes := Buffer_from str in
  match xor_loop bytes 0 license_key with
  | Return bytes => Return (base64_encode bytes)
  | Throw e => Throw e
  end.

Definition setTransactionName (name : value) : M unit :=
  transaction <- tracer_getTransaction ;;
  match transaction with
  | None =>
      logger Warn [VString "No transaction found when setting name to '%s'."; name]
  | Some transaction =>
      if negb (ToBoolean name) then
        match truthy_field (url transaction) with
        | Some u =>
            logger Error
              [VString "Must include name in setTransactionName call for URL %s.";
               VString u]
        | None =>
            logger Error [VString "Must include name in setTransactionName call."]
        end
      else
        let partial := NAMES.CUSTOM ++ "/" ++ ToString name in
        assign (set_partialName partial) (WritePartialName partial)
  end.

Definition setControllerName (name action : value) : M unit :=
  transaction <- tracer_getTransaction ;;
  match transaction with
  | None =>
      logger Warn [VString "No transaction found when setting controller to %s."; name]
  | Some transaction =>
      if negb (ToBoolean name) then
        match truthy_field (url transaction) with
        | Some u =>
            logger Error
              [VString "Must include name in setControllerName call for URL %s.";
               VString u]
        | None =>
            logger Error [VString "Must include name in setControllerName call."]
        end
      else
        let action :=
          if ToBoolean action then action
          else if ToBoolean (of_field (verb transaction)) then of_field (verb transaction)
          else VString "GET" in
        let partial :=
          NAMES.CONTROLLER ++ "/" ++ ToString name ++ "/" ++ ToString action in
        assign (set_partialName partial) (WritePartialName partial)
  end.

Definition setIgnoreTransaction (ignored : value) : M unit :=
  transaction <- tracer_getTransaction ;;
  match transaction with
  | None => logger Warn [VString "No transaction found to ignore."]
  | Some _ => assign (set_forceIgnore ignored) (WriteForceIgnore ignored)
  end.

Definition noticeError (error : value) : M unit :=
  transaction <- tracer_getTransaction ;;
  errors_add transaction error.

Definition addNamingRule (pattern : pattern) (name : value) : M unit :=
  if negb (ToBoolean name) then
    logger Error [VString "Simple naming rules require a replacement name."]
  else
    userNormalizer_addSimple pattern (VString ("/" ++ ToString name)).

Definition addIgnoringRule (pattern : pattern) : M unit :=
  if negb (pattern_ToBoolean pattern) then
    logger Error [VString "Must include a URL pattern to ignore."]
  else
    userNormalizer_addSimple pattern VNull.

(** The object literal [rum_hash] of [getBrowserTimingHeader]. *)
Definition rum_hash (bm : BrowserMonitoring) (licenseKey appid : string)
    (time : Z) (transactionName : string) (trans : Transaction) : object :=
  [ ("agent", js_agent_file bm);
    ("beacon", beacon bm);
    ("errorBeacon", error_beacon bm);
    ("licenseKey", VString licenseKey);
    ("applicationID", VString appid);
    ("applicationTime", VNumber time);
    ("transactionName", VString transactionName);
    ("queueTime", VNumber (queueTime trans));
    ("agentToken", VNull);
    ("ttGuid", VString "") ]%list.

(** The inner function [_gracefail] of [getBrowserTimingHeader]. *)
Definition _gracefail (num : Z) : M string :=
  logger Warn [of_field (nth_error RUM_ISSUES (Z.to_nat num))] ;;;
  ret ("<!-- NREUM: (" ++ ToString (VNumber num) ++ ") -->").

Definition getBrowserTimingHeader : M string :=
  conf <- agent_config ;;
  match browser_monitoring conf with
  | None => _gracefail 2
  | Some bm =>
      if negb (enable bm) then _gracefail 0
      else
        trans <- agent_getTransaction ;;
        match trans with
        | None => _gracefail 1
        | Some trans =>
            match truthy_field (partialName trans) with
            | None => _gracefail 3
            | Some name =>
                let time := timer_getDurationInMillis trans in
                let key := license_key conf in
                match truthy_field (application_id conf) with
                | None => _gracefail 4
                | Some appid =>
                    match truthy_field (browser_key bm) with
                    | None => _gracefail 5
                    | Some licenseKey =>
                        transactionName <- lift (_rumObfuscate name key) ;;
                        let tabs := if debug bm then 2 else 0 in
                        let json :=
                          JSON_stringify
                            (rum_hash bm licenseKey appid time transactionName trans)
                            tabs in
                        let out :=
                          util_format RUM_STUB [VString json; js_agent_loader bm] in
                        logger Trace [VString "generating RUM header"; VString out] ;;;
                        ret out
                    end
                end
            end
        end
  end.

(* ================================================================== *)
(** * Vocabulary of the properties *)
(* ================================================================== *)

(** The agent after an operation that leaves the configuration alone: the
    transaction it now has and the events added to the journal. *)
Definition after (w : Agent) (cur : option Transaction) (done : list event) : Agent :=
  {| config := config w; current := cur; journal := (journal w ++ done)%list |}.

Definition is_log (e : event) : bool :=
  match e with
  | Log _ _ => true
  | _ => false
  end.

Definition is_field_write (e : event) : bool :=
  match e with
  | WritePartialName _ | WriteForceIgnore _ => true
  | _ => false
  end.

Definition is_warning (e : event) : bool :=
  match e with
  | Log Warn _ => true
  | _ => false
  end.

(** The license key has a character at index [i mod 13] for every octet
    position [i] below [n]: it has 13 characters or more, or at least [n]. *)
Definition key_covers (license_key : string) (n : nat) : Prop :=
  13 <= String.length license_key \/ n <= String.length license_key.

(** The decoding the round-trip property speaks of, following the spec's
    words: base64-decode, XOR again with the same cyclic key (the character
    at index [i mod 13]), and read the octets back as text. [None] when any
    of the three steps has no result. *)
Definition spec_decode (encoded license_key : string) : option string :=
  match base64_decode encoded with
  | Some bytes =>
      match xor_loop bytes 0 license_key with
      | Return plain => Buffer_toString_utf8 plain
      | Throw _ => None
      end
  | None => None
  end.

(** What a naming call may do to agent [w]: return after exactly one event,
    which is either a log record (and then the transaction is as before) or
    the write of [partialName] on the transaction at hand. *)
Definition one_write_or_one_log (w : Agent) (r : outcome unit * Agent) : Prop :=
  exists e cur,
    r = (Return tt, after w cur [e]) /\
    ((is_log e = true /\ is_field_write e = false /\ cur = current w)
     \/
     (exists s t, e = WritePartialName s /\ current w = Some t /\
                  cur = Some (set_partialName s t))).

(** A graceful failure in agent [w]: the comment is returned and one
    warning carries the message. *)
Definition graceful (w : Agent) (comment message : string) : outcome string * Agent :=
  (Return comment, after w (current w) [Log Warn [VString message]]).

(** The two layouts of a serialized property. *)
Definition member_compact (kt : string * string) : string :=
  json_quote (fst kt) ++ ":" ++ snd kt.

Definition member_indented (kt : string * string) : string :=
  json_quote (fst kt) ++ ": " ++ snd kt.

(** ** Sample agents *)

Definition sample_monitoring : BrowserMonitoring :=
  {| enable := true;
     browser_key := Some "abc123";
     js_agent_file := VString "js-agent.newrelic.com/nr-100.js";
     js_agent_loader := VString "window.NREUM||(NREUM={});";
     beacon := VString "beacon-1.newrelic.com";
     error_beacon := VString "jserror.newrelic.com";
     debug := false |}.

Definition sample_transaction : Transaction :=
  {| partialName := Some "Custom/Foo";
     forceIgnore := VUndefined;
     url := Some "/foo";
     verb := Some "POST";
     queueTime := 5;
     timer_getDurationInMillis := 10 |}.

Definition sample_config (key : string) : Config :=
  {| license_key := key;
     application_id := Some "42";
     browser_monitoring := Some sample_monitoring |}.

(** An agent inside a request, with a license key of 13 characters. *)
Definition sample_agent : Agent :=
  {| config := sample_config "0123456789ABC";
     current := Some sample_transaction;
     journal := [] |}.

(** The same agent outside any request. *)
Definition idle_agent : Agent :=
  {| config := sample_config "0123456789ABC"; current := None; journal := [] |}.

(** The same agent with a license key of three characters. *)
Definition short_key_agent : Agent :=
  {| config := sample_config "abc";
     current := Some sample_transaction;
     journal := [] |}.

(** An agent with a license key of 13 characters and the given
    monitoring section, application id and transaction. *)
Definition agent_with (bm : option BrowserMonitoring) (appid : option string)
    (t : option Transaction) : Agent :=
  {| config := {| license_key := "0123456789ABC";
                  application_id := appid;
                  browser_monitoring := bm |};
     current := t;
     journal := [] |}.

Definition disabled_monitoring : BrowserMonitoring :=
  {| enable := false;
     browser_key := Some "abc123";
     js_agent_file := VString "js-agent.newrelic.com/nr-100.js";
     js_agent_loader := VString "window.NREUM||(NREUM={});";
     beacon := VString "beacon-1.newrelic.com";
     error_beacon := VString "jserror.newrelic.com";
     debug := false |}.

Definition keyless_monitoring : BrowserMonitoring :=
  {| enable := true;
     browser_key := None;
     js_agent_file := VString "js-agent.newrelic.com/nr-100.js";
     js_agent_loader := VString "window.NREUM||(NREUM={});";
     beacon := VString "beacon-1.newrelic.com";
     error_beacon := VString "jserror.newrelic.com";
     debug := false |}.

Definition unnamed_transaction : Transaction :=
  {| partialName := None;
     forceIgnore := VUndefined;
     url := Some "/foo";
     verb := Some "POST";
     queueTime := 5;
     timer_getDurationInMillis := 10 |}.

Definition long_named_transaction : Transaction :=
  {| partialName := Some "Controller/users/index";
     forceIgnore := VUndefined;
     url := Some "/users";
     verb := Some "GET";
     queueTime := 0;
     timer_getDurationInMillis := 3 |}.

Definition no_monitoring_agent : Agent :=
  agent_with None (Some "42") (Some sample_transaction).

Definition disabled_agent : Agent :=
  agent_with (Some disabled_monitoring) (Some "42") (Some sample_transaction).

Definition unnamed_agent : Agent :=
  agent_with (Some sample_monitoring) (Some "42") (Some unnamed_transaction).

Definition unregistered_agent : Agent :=
  agent_with (Some sample_monitoring) None (Some sample_transaction).

Definition keyless_agent : Agent :=
  agent_with (Some keyless_monitoring) (Some "42") (Some sample_transaction).

(** An agent with a license key of 12 characters, inside a request whose
    name has 22. *)
Definition twelve_key_agent : Agent :=
  {| config := sample_config "0123456789AB";
     current := Some long_named_transaction;
     journal := [] |}.

(** ** Vocabulary of the further properties *)

(** The characters base64 text is made of. *)
Definition is_b64_char (c : ascii) : bool :=
  match b64_value c with
  | Some _ => true
  | None => Ascii.eqb c b64_pad
  end.

Fixpoint string_forall (p : ascii -> bool) (s : string) : bool :=
  match s with
  | EmptyString => true
  | String c rest => p c && string_forall p rest
  end.

(** The comments [getBrowserTimingHeader] returns on a failed check. *)
Definition failure_comments : list string :=
  [ "<!-- NREUM: (0) -->"; "<!-- NREUM: (1) -->"; "<!-- NREUM: (2) -->";
    "<!-- NREUM: (3) -->"; "<!-- NREUM: (4) -->"; "<!-- NREUM: (5) -->" ]%list.

(** The six checks of [getBrowserTimingHeader] pass in agent [w], with the
    monitoring section, the transaction, its name, the application id and
    the browser key they let through. *)
Definition checks_pass (w : Agent) (bm : BrowserMonitoring) (t : Transaction)
    (name appid licenseKey : string) : Prop :=
  browser_monitoring (config w) = Some bm /\
  enable bm = true /\
  current w = Some t /\
  truthy_field (partialName t) = Some name /\
  truthy_field (application_id (config w)) = Some appid /\
  truthy_field (browser_key bm) = Some licenseKey.

(** The script element of the header for a given JSON text and loader. *)
Definition script_of (json : string) (loader : value) : string :=
  "<script type='text/javascript'>window.NREUM||(NREUM={});NREUM.info = "
    ++ json ++ "; " ++ ToString loader ++ "</script>".

(* ================================================================== *)
(** * Properties of the runtime services *)
(* ================================================================== *)
Lemma N_lxor_byte (a b : N) : (a < 256 -> b < 256 -> N.lxor a b < 256)%N.
Proof.
  intros Ha Hb.
  destruct (N.eq_dec (N.lxor a b) 0) as [E | E]; [rewrite E; reflexivity |].
  apply (N.log2_lt_pow2 _ 8); [lia |].
  eapply N.le_lt_trans; [apply N.log2_lxor |].
  apply N.max_lub_lt.
  - destruct (N.eq_dec a 0) as [-> | Na]; [reflexivity |].
    apply N.log2_lt_pow2; [lia | exact Ha].
  - destruct (N.eq_dec b 0) as [-> | Nb]; [reflexivity |].
    apply N.log2_lt_pow2; [lia | exact Hb].
Qed.

Lemma xor_store_involutive (b k : ascii) :
  xor_store (xor_store b (charCodeAt0 k)) (charCodeAt0 k) = b.
Proof.
  unfold xor_store, charCodeAt0.
  rewrite N_ascii_embedding
    by (apply N_lxor_byte; apply N_ascii_bounded).
  rewrite N.lxor_assoc, N.lxor_nilpotent, N.lxor_0_r.
  apply ascii_N_embedding.
Qed.

Lemma xor_loop_involutive (key : string) :
  forall bytes i out,
    xor_loop bytes i key = Return out -> xor_loop out i key = Return bytes.
Proof.
  induction bytes as [| b rest IH]; intros i out H; cbn [xor_loop] in H.
  - injection H as <-. reflexivity.
  - destruct (string_at key (i mod 13)) as [k |] eqn:Ek; [| discriminate].
    destruct (xor_loop rest (S i) key) as [out' | e] eqn:Er; [| discriminate].
    injection H as <-.
    cbn [xor_loop]. rewrite Ek, (IH _ _ Er), xor_store_involutive. reflexivity.
Qed.

Lemma string_at_Some (s : string) :
  forall i, i < String.length s <-> exists c, string_at s i = Some c.
Proof.
  unfold string_at.
  induction s as [| d s IH]; intros i; simpl.
  - split; [lia | intros [c H]; destruct i; discriminate].
  - destruct i as [| i]; simpl.
    + split; [eauto | lia].
    + rewrite <- IH. lia.
Qed.

Lemma xor_loop_defined (key : string) :
  forall bytes i,
    (forall j, j < List.length bytes -> (i + j) mod 13 < String.length key) ->
    exists out, xor_loop bytes i key = Return out.
Proof.
  induction bytes as [| b rest IH]; intros i H; cbn [xor_loop].
  - eauto.
  - assert (H0 : i mod 13 < String.length key).
    { specialize (H 0). rewrite Nat.add_0_r in H. apply H. simpl; lia. }
    apply string_at_Some in H0. destruct H0 as [k ->].
    destruct (IH (S i)) as [out ->]; [| eauto].
    intros j Hj. replace (S i + j) with (i + S j) by lia. apply H. simpl; lia.
Qed.

Lemma xor_loop_pointwise (key : string) :
  forall bytes i out,
    xor_loop bytes i key = Return out ->
    List.length out = List.length bytes /\
    forall j b, nth_error bytes j = Some b ->
      exists k, string_at key ((i + j) mod 13) = Some k /\
                nth_error out j = Some (xor_store b (charCodeAt0 k)).
Proof.
  induction bytes as [| b rest IH]; intros i out H; cbn [xor_loop] in H.
  - injection H as <-. split; [reflexivity |]. intros [|] ? ?; discriminate.
  - destruct (string_at key (i mod 13)) as [k |] eqn:Ek; [| discriminate].
    destruct (xor_loop rest (S i) key) as [out' | e] eqn:Er; [| discriminate].
    injection H as <-. destruct (IH _ _ Er) as [Hl Hp].
    split; [simpl; congruence |].
    intros [| j] c Hc; simpl in Hc.
    + injection Hc as <-. rewrite Nat.add_0_r. eauto.
    + replace (i + S j) with (S i + j) by lia. apply Hp, Hc.
Qed.

Lemma string_at_prefix (key : string) (n i : nat) :
  i < n -> string_at (substring 0 n key) i = string_at key i.
Proof.
  intros H. unfold string_at. rewrite substring_correct1 by exact H.
  now rewrite Nat.add_0_r.
Qed.

Lemma xor_loop_prefix (key key' : string) :
  substring 0 13 key' = substring 0 13 key ->
  forall bytes i, xor_loop bytes i key' = xor_loop bytes i key.
Proof.
  intros Hp. induction bytes as [| b rest IH]; intros i; cbn [xor_loop]; [reflexivity |].
  assert (Hi : i mod 13 < 13) by (apply Nat.mod_upper_bound; lia).
  rewrite <- (string_at_prefix key' 13), <- (string_at_prefix key 13), Hp by exact Hi.
  rewrite IH. reflexivity.
Qed.

Lemma b64_value_char_nat (k : nat) :
  k < 64 -> b64_value (b64_char (N.of_nat k)) = Some (N.of_nat k).
Proof.
  intros H.
  do 64 (destruct k as [| k]; [vm_compute; reflexivity |]).
  lia.
Qed.

Lemma b64_value_char (n : N) : (n < 64)%N -> b64_value (b64_char n) = Some n.
Proof.
  intros H. rewrite <- (N2Nat.id n). apply b64_value_char_nat. lia.
Qed.

Lemma b64_char_not_pad (n : N) : (n < 64)%N -> Ascii.eqb (b64_char n) b64_pad = false.
Proof.
  intros H. destruct (Ascii.eqb_spec (b64_char n) b64_pad) as [E | _]; [| reflexivity].
  pose proof (b64_value_char n H) as V. rewrite E in V. vm_compute in V. discriminate.
Qed.

Ltac div_lia := Z.to_euclidean_division_equations; lia.

Lemma sextet_mod_lt (m : N) : (m mod 64 < 64)%N.
Proof. apply N.mod_lt. discriminate. Qed.

Section Sextets.
Variables a b c : N.
Hypotheses (Ha : (a < 256)%N) (Hb : (b < 256)%N) (Hc : (c < 256)%N).
Let n := (a * 65536 + b * 256 + c)%N.

Lemma sextets_recombine :
  (n / 262144 * 262144 + (n / 4096) mod 64 * 4096 + (n / 64) mod 64 * 64 + n mod 64 = n)%N.
Proof. subst n. zify. div_lia. Qed.

Lemma octets_split :
  (n / 65536 = a /\ (n / 256) mod 256 = b /\ n mod 256 = c)%N.
Proof. subst n. repeat split; zify; div_lia. Qed.
End Sextets.

Lemma tail1_octet (a : N) :
  (a < 256)%N ->
  let n := (a * 65536)%N in
  ((n / 262144 * 262144 + (n / 4096) mod 64 * 4096) / 65536 = a)%N.
Proof. intros H n. subst n. zify. div_lia. Qed.

Lemma tail2_octets (a b : N) :
  (a < 256)%N -> (b < 256)%N ->
  let n := (a * 65536 + b * 256)%N in
  let m := (n / 262144 * 262144 + (n / 4096) mod 64 * 4096 + (n / 64) mod 64 * 64)%N in
  (m / 65536 = a /\ (m / 256) mod 256 = b)%N.
Proof. intros Ha Hb n m. subst m n. split; zify; div_lia. Qed.

Lemma div_262144_lt (n : N) : (n < 16777216)%N -> (n / 262144 < 64)%N.
Proof. intros H. apply N.Div0.div_lt_upper_bound. lia. Qed.

Lemma base64_decode_group (c1 c2 c3 c4 : ascii) (rest : string) :
  base64_decode (String c1 (String c2 (String c3 (String c4 rest)))) =
  match b64_value c1, b64_value c2 with
  | Some v1, Some v2 =>
      if Ascii.eqb c4 b64_pad && (rest =? "") then
        if Ascii.eqb c3 b64_pad then
          let n := (v1 * 262144 + v2 * 4096)%N in
          Some [ascii_of_N (n / 65536)]
        else
          match b64_value c3 with
          | Some v3 =>
              let n := (v1 * 262144 + v2 * 4096 + v3 * 64)%N in
              Some [ascii_of_N (n / 65536); ascii_of_N ((n / 256) mod 256)]
          | None => None
          end
      else
        match b64_value c3, b64_value c4, base64_decode rest with
        | Some v3, Some v4, Some bs =>
            let n := (v1 * 262144 + v2 * 4096 + v3 * 64 + v4)%N in
            Some (ascii_of_N (n / 65536)
                    :: ascii_of_N ((n / 256) mod 256)
                    :: ascii_of_N (n mod 256) :: bs)
        | _, _, _ => None
        end
  | _, _ => None
  end.
Proof. reflexivity. Qed.

Lemma base64_encode_group (a b c : byte) (rest : Buffer) :
  base64_encode (a :: b :: c :: rest) =
  let n := (N_of_ascii a * 65536 + N_of_ascii b * 256 + N_of_ascii c)%N in
  String (b64_char (n / 262144))
    (String (b64_char ((n / 4096) mod 64))
       (String (b64_char ((n / 64) mod 64))
          (String (b64_char (n mod 64)) (base64_encode rest)))).
Proof. reflexivity. Qed.

Lemma base64_roundtrip_upto (n : nat) :
  forall bs : Buffer, List.length bs <= n -> base64_decode (base64_encode bs) = Some bs.
Proof.
  induction n as [| n IH]; intros bs Hn.
  - destruct bs; [reflexivity | simpl in Hn; lia].
  - destruct bs as [| a [| b [| c rest]]].
    + reflexivity.
    + pose proof (N_ascii_bounded a) as Ha.
      cbv beta iota delta [base64_encode]. rewrite base64_decode_group.
      rewrite !b64_value_char
        by (apply sextet_mod_lt || (apply div_262144_lt; lia)).
      change (Ascii.eqb b64_pad b64_pad) with true. cbn [andb String.eqb].
      cbv zeta. rewrite tail1_octet by exact Ha. now rewrite ascii_N_embedding.
    + pose proof (N_ascii_bounded a) as Ha. pose proof (N_ascii_bounded b) as Hb.
      cbv beta iota delta [base64_encode]. rewrite base64_decode_group.
      rewrite !b64_value_char
        by (apply sextet_mod_lt || (apply div_262144_lt; lia)).
      change (Ascii.eqb b64_pad b64_pad) with true. cbn [andb String.eqb].
      rewrite b64_char_not_pad by apply sextet_mod_lt.
      cbv zeta.
      destruct (tail2_octets _ _ Ha Hb) as [-> ->].
      now rewrite !ascii_N_embedding.
    + pose proof (N_ascii_bounded a) as Ha. pose proof (N_ascii_bounded b) as Hb.
      pose proof (N_ascii_bounded c) as Hc.
      rewrite base64_encode_group. cbv zeta. rewrite base64_decode_group.
      rewrite !b64_value_char
        by (apply sextet_mod_lt || (apply div_262144_lt; lia)).
      rewrite b64_char_not_pad by apply sextet_mod_lt. cbn [andb].
      rewrite IH by (simpl in Hn; lia).
      cbv zeta. rewrite sextets_recombine by assumption.
      destruct (octets_split _ _ _ Ha Hb Hc) as (-> & -> & ->).
      now rewrite !ascii_N_embedding.
Qed.

Lemma base64_roundtrip (bs : Buffer) : base64_decode (base64_encode bs) = Some bs.
Proof. apply (base64_roundtrip_upto (List.length bs)). lia. Qed.

Lemma utf8_unit_decoded (c : ascii) (rest : Buffer) :
  Buffer_toString_utf8 (utf8_unit c ++ rest)%list =
  option_map (String c) (Buffer_toString_utf8 rest).
Proof. destruct c as [[] [] [] [] [] [] [] []]; reflexivity. Qed.

Lemma utf8_roundtrip (s : string) : Buffer_toString_utf8 (Buffer_from s) = Some s.
Proof.
  induction s as [| c s IH]; [reflexivity |].
  cbn [Buffer_from]. rewrite utf8_unit_decoded, IH. reflexivity.
Qed.

(* ================================================================== *)
(** * Properties of [api.js] *)
(* ================================================================== *)

(** ** The obfuscation cipher *)

Lemma key_covers_iff (key : string) (n : nat) :
  key_covers key n <-> forall i, i < n -> i mod 13 < String.length key.
Proof.
  unfold key_covers. split.
  - intros [H | H] i Hi.
    + pose proof (Nat.mod_upper_bound i 13). lia.
    + pose proof (Nat.Div0.mod_le i 13). lia.
  - intros H.
    destruct (le_lt_dec 13 (String.length key)) as [| Hk]; [now left |].
    destruct (le_lt_dec n (String.length key)) as [| Hn]; [now right |].
    specialize (H _ Hn). rewrite Nat.mod_small in H by exact Hk. lia.
Qed.

Lemma xor_loop_covered (key : string) (bytes : Buffer) :
  key_covers key (List.length bytes) -> exists out, xor_loop bytes 0 key = Return out.
Proof.
  intros H. apply xor_loop_defined. intros j Hj. cbn [Nat.add].
  now apply key_covers_iff with (n := List.length bytes).
Qed.

Lemma rumObfuscate_prefix (text key key' : string) :
  substring 0 13 key' = substring 0 13 key ->
  _rumObfuscate text key' = _rumObfuscate text key.
Proof.
  intros H. unfold _rumObfuscate. now rewrite (xor_loop_prefix key key' H).
Qed.

Lemma rumObfuscate_decodes (text key : string) :
  key_covers key (List.length (Buffer_from text)) ->
  exists enc, _rumObfuscate text key = Return enc /\ spec_decode enc key = Some text.
Proof.
  intros H. destruct (xor_loop_covered _ _ H) as [out E].
  exists (base64_encode out). unfold _rumObfuscate, spec_decode.
  rewrite E, base64_roundtrip, (xor_loop_involutive _ _ _ _ E).
  split; [reflexivity | apply utf8_roundtrip].
Qed.

(** C5 (amended). Whenever the key has a character at index [i mod 13] for
    every octet position [i] of the encoded text (a key of 13 characters or
    more, or a key no shorter than the encoded text), [_rumObfuscate]
    returns the base64 text of the octets obtained by XOR-ing octet [i]
    with the character code of the key at index [i mod 13]. And whatever
    the key, only its first 13 characters matter: two keys with the same
    first 13 characters give the same outcome. *)
Theorem rumObfuscate_xor_base64 (text key : string) :
  (key_covers key (List.length (Buffer_from text)) ->
   exists out : Buffer,
     _rumObfuscate text key = Return (base64_encode out) /\
     List.length out = List.length (Buffer_from text) /\
     forall i b, nth_error (Buffer_from text) i = Some b ->
       exists k, String.get (i mod 13) key = Some k /\
                 nth_error out i = Some (ascii_of_N (N.lxor (N_of_ascii b) (N_of_ascii k))))
  /\
  (forall key', substring 0 13 key' = substring 0 13 key ->
     _rumObfuscate text key' = _rumObfuscate text key).
Proof.
  split.
  - intros H. destruct (xor_loop_covered _ _ H) as [out E].
    exists out. unfold _rumObfuscate. rewrite E.
    destruct (xor_loop_pointwise _ _ _ _ E) as [Hl Hp].
    repeat split; [exact Hl |]. intros i b Hb. exact (Hp i b Hb).
  - intros key'. apply rumObfuscate_prefix.
Qed.

Lemma rumObfuscate_xor_base64_witness :
  (exists out : Buffer,
     _rumObfuscate "Custom/Foo" "0123456789ABC" = Return (base64_encode out) /\
     List.length out = List.length (Buffer_from "Custom/Foo") /\
     forall i b, nth_error (Buffer_from "Custom/Foo") i = Some b ->
       exists k, String.get (i mod 13) "0123456789ABC" = Some k /\
                 nth_error out i = Some (ascii_of_N (N.lxor (N_of_ascii b) (N_of_ascii k))))
  /\ _rumObfuscate "Custom/Foo" "0123456789ABCDEF" = _rumObfuscate "Custom/Foo" "0123456789ABC".
Proof.
  split.
  - apply (proj1 (rumObfuscate_xor_base64 "Custom/Foo" "0123456789ABC")).
    left. vm_compute. lia.
  - apply (proj2 (rumObfuscate_xor_base64 "Custom/Foo" "0123456789ABC")).
    reflexivity.
Defined.

(** C5, as stated, fails: the key ["abc"] is shorter than 13 characters,
    position 3 of the text ["abcd"] has no key character at index
    [3 mod 13], and the call throws instead of returning base64 text. *)
Lemma short_key_position_undefined :
  String.length "abc" < 13 /\
  nth_error (Buffer_from "abcd") 3 = Some "d"%char /\
  String.get (3 mod 13) "abc" = None /\
  _rumObfuscate "abcd" "abc" = Throw TypeError.
Proof.
  split; [vm_compute; lia |].
  split; [vm_compute; reflexivity |].
  split; vm_compute; reflexivity.
Qed.

(** C2 (amended). For every text and every key of 13 or fewer characters
    that has a character at index [i mod 13] for every octet position [i]
    of the encoded text (the key has exactly 13 characters, or is no
    shorter than the encoded text), decoding the output of
    [_rumObfuscate] gives the text back. *)
Theorem obfuscate_roundtrip (text key : string) :
  String.length key <= 13 ->
  String.length key = 13 \/ List.length (Buffer_from text) <= String.length key ->
  exists enc,
    _rumObfuscate text key = Return enc /\ spec_decode enc key = Some text.
Proof.
  intros _ H. apply rumObfuscate_decodes. unfold key_covers. lia.
Qed.

Lemma obfuscate_roundtrip_witness :
  exists enc,
    _rumObfuscate "Custom/Foo" "0123456789ABC" = Return enc /\
    spec_decode enc "0123456789ABC" = Some "Custom/Foo".
Proof.
  apply (obfuscate_roundtrip "Custom/Foo" "0123456789ABC").
  - vm_compute. lia.
  - left. reflexivity.
Defined.

(** C2, as stated, fails: with the three-character key ["abc"] the text
    ["Custom/Foo"] has no obfuscated form to decode. *)
Lemma roundtrip_fails_short_key :
  String.length "abc" <= 13 /\
  ~ exists enc,
      _rumObfuscate "Custom/Foo" "abc" = Return enc /\
      spec_decode enc "abc" = Some "Custom/Foo".
Proof.
  split; [vm_compute; lia |].
  intros (enc & H & _). vm_compute in H. discriminate.
Qed.

(** ** Naming the transaction *)

Lemma ToBoolean_VString (s : string) : ToBoolean (VString s) = true <-> s <> "".
Proof.
  cbn [ToBoolean]. destruct (String.eqb_spec s ""); cbn [negb]; split; congruence.
Qed.

Lemma truthy_field_Some (f : option string) (s : string) :
  truthy_field f = Some s <-> f = Some s /\ s <> "".
Proof.
  unfold truthy_field. destruct f as [s' |]; [| split; [discriminate | intros [? _]; discriminate]].
  destruct (ToBoolean (VString s')) eqn:E; split.
  - intros [= ->]. split; [reflexivity | now apply ToBoolean_VString].
  - intros [[= ->] _]. reflexivity.
  - discriminate.
  - intros [[= ->] H]. apply ToBoolean_VString in H. congruence.
Qed.

(** Unfolds a call down to the agent it runs in. *)
Ltac run_call :=
  unfold setTransactionName, setControllerName, setIgnoreTransaction, noticeError,
    addNamingRule, addIgnoringRule, _gracefail, bind, ret, lift, logger, assign, emit,
    userNormalizer_addSimple, errors_add, agent_getTransaction, tracer_getTransaction,
    agent_config, after.

(** C7. With a transaction and a non-empty (truthy) name,
    [setTransactionName] sets [partialName] to ["Custom/" + name] and changes
    no other field; without a transaction it changes nothing and emits
    exactly one warning; with a transaction and an empty or missing (falsy)
    name it changes nothing and logs exactly one error, which carries the
    transaction's URL when the URL is known. *)
Theorem setTransactionName_spec (w : Agent) (name : value) :
  (forall t, current w = Some t -> ToBoolean name = true ->
     setTransactionName name w =
       (Return tt,
        after w
          (Some {| partialName := Some ("Custom/" ++ ToString name);
                   forceIgnore := forceIgnore t;
                   url := url t;
                   verb := verb t;
                   queueTime := queueTime t;
                   timer_getDurationInMillis := timer_getDurationInMillis t |})
          [WritePartialName ("Custom/" ++ ToString name)]))
  /\
  (current w = None ->
     setTransactionName name w =
       (Return tt,
        after w None
          [Log Warn [VString "No transaction found when setting name to '%s'."; name]]))
  /\
  (forall t, current w = Some t -> ToBoolean name = false ->
     (forall u, url t = Some u -> u <> "" ->
        setTransactionName name w =
          (Return tt,
           after w (Some t)
             [Log Error
                [VString "Must include name in setTransactionName call for URL %s.";
                 VString u]]))
     /\
     (url t = None \/ url t = Some "" ->
        setTransactionName name w =
          (Return tt,
           after w (Some t)
             [Log Error [VString "Must include name in setTransactionName call."]]))).
Proof.
  split; [| split].
  - intros t Ht Hn. run_call. rewrite Ht, Hn. cbn [negb]. rewrite Ht. reflexivity.
  - intros Ht. run_call. rewrite Ht. cbn beta iota. rewrite Ht. reflexivity.
  - intros t Ht Hn. split.
    + intros u Hu Hne. run_call. rewrite Ht, Hn. cbn [negb].
      rewrite (proj2 (truthy_field_Some (url t) u) (conj Hu Hne)), Ht. reflexivity.
    + intros Hu. run_call. rewrite Ht, Hn. cbn [negb].
      assert (E : truthy_field (url t) = None)
        by (destruct Hu as [-> | ->]; reflexivity).
      rewrite E, Ht. reflexivity.
Qed.

Lemma setTransactionName_spec_witness :
  (setTransactionName (VString "Foo") sample_agent =
     (Return tt,
      after sample_agent
        (Some {| partialName := Some ("Custom/" ++ "Foo");
                 forceIgnore := VUndefined;
                 url := Some "/foo";
                 verb := Some "POST";
                 queueTime := 5;
                 timer_getDurationInMillis := 10 |})
        [WritePartialName ("Custom/" ++ "Foo")]))
  /\
  (setTransactionName (VString "Foo") idle_agent =
     (Return tt,
      after idle_agent None
        [Log Warn [VString "No transaction found when setting name to '%s'.";
                   VString "Foo"]]))
  /\
  (setTransactionName VUndefined sample_agent =
     (Return tt,
      after sample_agent (Some sample_transaction)
        [Log Error
           [VString "Must include name in setTransactionName call for URL %s.";
            VString "/foo"]])).
Proof.
  split; [| split].
  - apply (proj1 (setTransactionName_spec sample_agent (VString "Foo")) sample_transaction);
      reflexivity.
  - apply (proj1 (proj2 (setTransactionName_spec idle_agent (VString "Foo")))).
    reflexivity.
  - apply (proj1 (proj2 (proj2 (setTransactionName_spec sample_agent VUndefined))
                    sample_transaction eq_refl eq_refl) "/foo").
    + reflexivity.
    + discriminate.
Defined.

(** The action [setControllerName] ends up using. *)
Lemma controller_action_cases (action : value) (t : Transaction) :
  (if ToBoolean action then action
   else if ToBoolean (of_field (verb t)) then of_field (verb t)
   else VString "GET") =
  (if ToBoolean action then action
   else match truthy_field (verb t) with
        | Some v => VString v
        | None => VString "GET"
        end).
Proof.
  destruct (ToBoolean action); [reflexivity |].
  unfold truthy_field, of_field. destruct (verb t) as [v |]; [| reflexivity].
  destruct (ToBoolean (VString v)); reflexivity.
Qed.

(** C6 (amended). With a transaction and a non-empty (truthy) name,
    [setControllerName] sets [partialName] to
    ["Controller/" + name + "/" + action] when the action is non-empty; when
    the action is omitted or empty the transaction's verb takes its place,
    and ["GET"] when the verb is absent or empty too. *)
Theorem setControllerName_spec (w : Agent) (t : Transaction) (name action : value) :
  current w = Some t ->
  ToBoolean name = true ->
  let used :=
    if ToBoolean action then ToString action
    else match verb t with
         | Some v => if v =? "" then "GET" else v
         | None => "GET"
         end in
  let partial := "Controller/" ++ ToString name ++ "/" ++ used in
  setControllerName name action w =
    (Return tt,
     after w
       (Some {| partialName := Some partial;
                forceIgnore := forceIgnore t;
                url := url t;
                verb := verb t;
                queueTime := queueTime t;
                timer_getDurationInMillis := timer_getDurationInMillis t |})
       [WritePartialName partial]).
Proof.
  intros Ht Hn used partial. subst partial used. run_call. rewrite Ht, Hn. cbn [negb].
  rewrite controller_action_cases, Ht. unfold set_partialName.
  destruct (ToBoolean action); [reflexivity |].
  unfold truthy_field. destruct (verb t) as [v |]; [| reflexivity].
  cbn [ToBoolean]. destruct (v =? ""); reflexivity.
Qed.

Lemma setControllerName_spec_witness :
  setControllerName (VString "users") (VString "index") sample_agent =
    (Return tt,
     after sample_agent
       (Some {| partialName := Some "Controller/users/index";
                forceIgnore := VUndefined;
                url := Some "/foo";
                verb := Some "POST";
                queueTime := 5;
                timer_getDurationInMillis := 10 |})
       [WritePartialName "Controller/users/index"])
  /\
  setControllerName (VString "users") VUndefined sample_agent =
    (Return tt,
     after sample_agent
       (Some {| partialName := Some "Controller/users/POST";
                forceIgnore := VUndefined;
                url := Some "/foo";
                verb := Some "POST";
                queueTime := 5;
                timer_getDurationInMillis := 10 |})
       [WritePartialName "Controller/users/POST"]).
Proof.
  split.
  - apply (setControllerName_spec sample_agent sample_transaction
             (VString "users") (VString "index")); reflexivity.
  - apply (setControllerName_spec sample_agent sample_transaction
             (VString "users") VUndefined); reflexivity.
Defined.

(** C6, as stated, fails for an empty name and for an empty action: with
    the name [""] and the action ["index"] nothing is written ([partialName]
    stays ["Custom/Foo"], one error is logged), and with the name ["users"]
    and the action [""] the name written ends in the verb, not in the
    action. *)
Lemma setControllerName_not_for_every_pair :
  (current sample_agent = Some sample_transaction /\
   setControllerName (VString "") (VString "index") sample_agent =
     (Return tt,
      after sample_agent (Some sample_transaction)
        [Log Error
           [VString "Must include name in setControllerName call for URL %s.";
            VString "/foo"]]) /\
   partialName sample_transaction <> Some ("Controller/" ++ "" ++ "/" ++ "index"))
  /\
  (exists t',
     current (snd (setControllerName (VString "users") (VString "") sample_agent)) = Some t' /\
     partialName t' = Some "Controller/users/POST" /\
     partialName t' <> Some ("Controller/" ++ "users" ++ "/" ++ "")).
Proof.
  split.
  - repeat split. discriminate.
  - eexists. repeat split. discriminate.
Qed.

(** C9. Whatever the transaction (present or not) and the arguments, a call
    of [setTransactionName] or [setControllerName] adds exactly one event:
    one write of [partialName], or one log record and no write; never a
    write together with a log record. *)
Theorem naming_call_one_write_or_one_log (w : Agent) (name action : value) :
  one_write_or_one_log w (setTransactionName name w) /\
  one_write_or_one_log w (setControllerName name action w).
Proof.
  unfold one_write_or_one_log. split.
  - run_call. destruct (current w) as [t |] eqn:Ht; cbn beta iota.
    + destruct (ToBoolean name); cbn [negb].
      * rewrite Ht. do 2 eexists. split; [reflexivity |]. right. eauto.
      * destruct (truthy_field (url t)); do 2 eexists;
          (split; [reflexivity | left; rewrite Ht; auto]).
    + do 2 eexists. split; [reflexivity |]. left. rewrite Ht. auto.
  - run_call. destruct (current w) as [t |] eqn:Ht; cbn beta iota.
    + destruct (ToBoolean name); cbn [negb].
      * rewrite Ht. do 2 eexists. split; [reflexivity |]. right. eauto.
      * destruct (truthy_field (url t)); do 2 eexists;
          (split; [reflexivity | left; rewrite Ht; auto]).
    + do 2 eexists. split; [reflexivity |]. left. rewrite Ht. auto.
Qed.

(** ** Ignoring the transaction *)

(** C10. With a transaction, [setIgnoreTransaction] stores its argument as
    it is, whatever value it is ([undefined] when the call has no
    argument) and whatever was stored before: [forceIgnore] is the
    argument, the other fields are as before, and nothing is logged. *)
Theorem setIgnoreTransaction_stores_argument (w : Agent) (t : Transaction) (v : value) :
  current w = Some t ->
  setIgnoreTransaction v w =
    (Return tt,
     after w
       (Some {| partialName := partialName t;
                forceIgnore := v;
                url := url t;
                verb := verb t;
                queueTime := queueTime t;
                timer_getDurationInMillis := timer_getDurationInMillis t |})
       [WriteForceIgnore v]).
Proof.
  intros Ht. run_call. rewrite Ht. cbn beta iota. rewrite Ht. reflexivity.
Qed.

Lemma setIgnoreTransaction_stores_argument_witness :
  setIgnoreTransaction VUndefined sample_agent =
    (Return tt,
     after sample_agent
       (Some {| partialName := Some "Custom/Foo";
                forceIgnore := VUndefined;
                url := Some "/foo";
                verb := Some "POST";
                queueTime := 5;
                timer_getDurationInMillis := 10 |})
       [WriteForceIgnore VUndefined])
  /\
  setIgnoreTransaction (VString "yes")
      {| config := sample_config "0123456789ABC";
         current := Some (set_forceIgnore (VBool true) sample_transaction);
         journal := [] |} =
    (Return tt,
     {| config := sample_config "0123456789ABC";
        current := Some (set_forceIgnore (VString "yes") sample_transaction);
        journal := [WriteForceIgnore (VString "yes")] |}).
Proof.
  split.
  - apply (setIgnoreTransaction_stores_argument sample_agent sample_transaction VUndefined).
    reflexivity.
  - apply (setIgnoreTransaction_stores_argument
             {| config := sample_config "0123456789ABC";
                current := Some (set_forceIgnore (VBool true) sample_transaction);
                journal := [] |}
             (set_forceIgnore (VBool true) sample_transaction) (VString "yes")).
    reflexivity.
Defined.

(** ** Naming and ignoring rules *)

(** C3. [addNamingRule] with an empty or missing (falsy) name logs one
    error and registers nothing; with any other name it registers the
    pattern with the replacement ["/" + name], whatever the pattern, the
    empty pattern included: [addNamingRule("", "x")] registers [""] with
    ["/x"]. [addIgnoringRule] with an empty (falsy) pattern logs one error
    and registers nothing; with any other pattern it registers the pattern
    with [null]. *)
Theorem rule_registration (w : Agent) (p : pattern) (name : value) :
  (ToBoolean name = false ->
     addNamingRule p name w =
       (Return tt,
        after w (current w)
          [Log Error [VString "Simple naming rules require a replacement name."]]))
  /\
  (ToBoolean name = true ->
     addNamingRule p name w =
       (Return tt,
        after w (current w) [AddSimple p (VString ("/" ++ ToString name))]))
  /\
  addNamingRule (Plain (VString "")) (VString "x") w =
    (Return tt,
     after w (current w) [AddSimple (Plain (VString "")) (VString "/x")])
  /\
  (pattern_ToBoolean p = false ->
     addIgnoringRule p w =
       (Return tt,
        after w (current w)
          [Log Error [VString "Must include a URL pattern to ignore."]]))
  /\
  (pattern_ToBoolean p = true ->
     addIgnoringRule p w = (Return tt, after w (current w) [AddSimple p VNull])).
Proof.
  repeat split.
  - intros H. run_call. rewrite H. reflexivity.
  - intros H. run_call. rewrite H. reflexivity.
  - intros H. run_call. rewrite H. reflexivity.
  - intros H. run_call. rewrite H. reflexivity.
Qed.

Lemma rule_registration_witness :
  addNamingRule (Plain (VString "^/a")) VUndefined idle_agent =
    (Return tt,
     after idle_agent None
       [Log Error [VString "Simple naming rules require a replacement name."]])
  /\
  addNamingRule (Plain (VString "^/a")) (VString "B") idle_agent =
    (Return tt,
     after idle_agent None [AddSimple (Plain (VString "^/a")) (VString "/B")])
  /\
  addIgnoringRule (Plain (VString "")) idle_agent =
    (Return tt,
     after idle_agent None
       [Log Error [VString "Must include a URL pattern to ignore."]])
  /\
  addIgnoringRule (RegExp "^/socket\.io/") idle_agent =
    (Return tt,
     after idle_agent None [AddSimple (RegExp "^/socket\.io/") VNull]).
Proof.
  split; [| split; [| split]].
  - apply (proj1 (rule_registration idle_agent (Plain (VString "^/a")) VUndefined)).
    reflexivity.
  - apply (proj1 (proj2 (rule_registration idle_agent (Plain (VString "^/a")) (VString "B")))).
    reflexivity.
  - apply (proj1 (proj2 (proj2 (proj2
             (rule_registration idle_agent (Plain (VString "")) VUndefined))))).
    reflexivity.
  - apply (proj2 (proj2 (proj2 (proj2
             (rule_registration idle_agent (RegExp "^/socket\.io/") VUndefined))))).
    reflexivity.
Defined.

(** ** The browser timing header *)

Ltac run_header :=
  unfold getBrowserTimingHeader, graceful; run_call.

(** C1. [getBrowserTimingHeader] makes six checks in this order, and the
    first one that fails decides the result: no [browser_monitoring]
    section (code 2), [browser_monitoring.enable] falsy (code 0), no
    transaction (code 1), no [partialName] on the transaction (code 3), no
    [application_id] (code 4), no [browser_monitoring.browser_key] (code 5).
    A failed check returns the comment [<!-- NREUM: (code) -->] and emits one
    warning, the message of that code; when the six checks pass no warning
    is emitted. *)
Theorem browser_timing_header_checks (w : Agent) :
  (browser_monitoring (config w) = None ->
   getBrowserTimingHeader w =
     graceful w "<!-- NREUM: (2) -->"
       "NREUM: conf.browser_monitoring missing, something is probably wrong")
  /\
  (forall bm,
     browser_monitoring (config w) = Some bm ->
     enable bm = false ->
     getBrowserTimingHeader w =
       graceful w "<!-- NREUM: (0) -->"
         "NREUM: no browser monitoring headers generated; disabled")
  /\
  (forall bm,
     browser_monitoring (config w) = Some bm ->
     enable bm = true ->
     current w = None ->
     getBrowserTimingHeader w =
       graceful w "<!-- NREUM: (1) -->"
         "NREUM: transaction missing while generating browser monitoring headers")
  /\
  (forall bm t,
     browser_monitoring (config w) = Some bm ->
     enable bm = true ->
     current w = Some t ->
     truthy_field (partialName t) = None ->
     getBrowserTimingHeader w =
       graceful w "<!-- NREUM: (3) -->"
         "NREUM: browser_monitoring headers need a transaction name")
  /\
  (forall bm t name,
     browser_monitoring (config w) = Some bm ->
     enable bm = true ->
     current w = Some t ->
     truthy_field (partialName t) = Some name ->
     truthy_field (application_id (config w)) = None ->
     getBrowserTimingHeader w =
       graceful w "<!-- NREUM: (4) -->"
         "NREUM: browser_monitoring requires valid application_id")
  /\
  (forall bm t name appid,
     browser_monitoring (config w) = Some bm ->
     enable bm = true ->
     current w = Some t ->
     truthy_field (partialName t) = Some name ->
     truthy_field (application_id (config w)) = Some appid ->
     truthy_field (browser_key bm) = None ->
     getBrowserTimingHeader w =
       graceful w "<!-- NREUM: (5) -->"
         "NREUM: browser_monitoring requires valid browser_key")
  /\
  (forall bm t name appid licenseKey,
     browser_monitoring (config w) = Some bm ->
     enable bm = true ->
     current w = Some t ->
     truthy_field (partialName t) = Some name ->
     truthy_field (application_id (config w)) = Some appid ->
     truthy_field (browser_key bm) = Some licenseKey ->
     exists done,
       snd (getBrowserTimingHeader w) = after w (current w) done /\
       existsb is_warning done = false).
Proof.
  repeat apply conj.
  - intros Hbm. run_header. rewrite Hbm. reflexivity.
  - intros bm Hbm He. run_header. rewrite Hbm, He. reflexivity.
  - intros bm Hbm He Ht. run_header. rewrite Hbm, He. cbn [negb]. rewrite Ht. cbn beta iota. rewrite ?Ht. reflexivity.
  - intros bm t Hbm He Ht Hn. run_header. rewrite Hbm, He. cbn [negb].
    rewrite Ht, Hn. cbn beta iota. rewrite ?Ht. reflexivity.
  - intros bm t name Hbm He Ht Hn Ha. run_header. rewrite Hbm, He. cbn [negb].
    rewrite Ht, Hn, Ha. cbn beta iota. rewrite ?Ht. reflexivity.
  - intros bm t name appid Hbm He Ht Hn Ha Hk. run_header. rewrite Hbm, He. cbn [negb].
    rewrite Ht, Hn, Ha, Hk. cbn beta iota. rewrite ?Ht. reflexivity.
  - intros bm t name appid licenseKey Hbm He Ht Hn Ha Hk. run_header.
    rewrite Hbm, He. cbn [negb]. rewrite Ht, Hn, Ha, Hk.
    destruct (_rumObfuscate name (license_key (config w))) as [obf | e].
    + cbn beta iota. rewrite ?Ht. eexists [_]. split; reflexivity.
    + exists []. split; [| reflexivity]. cbn [snd]. rewrite app_nil_r, <- Ht.
      destruct w; reflexivity.
Qed.

Lemma browser_timing_header_checks_witness :
  getBrowserTimingHeader no_monitoring_agent =
    graceful no_monitoring_agent "<!-- NREUM: (2) -->"
      "NREUM: conf.browser_monitoring missing, something is probably wrong"
  /\
  getBrowserTimingHeader disabled_agent =
    graceful disabled_agent "<!-- NREUM: (0) -->"
      "NREUM: no browser monitoring headers generated; disabled"
  /\
  getBrowserTimingHeader idle_agent =
    graceful idle_agent "<!-- NREUM: (1) -->"
      "NREUM: transaction missing while generating browser monitoring headers"
  /\
  getBrowserTimingHeader unnamed_agent =
    graceful unnamed_agent "<!-- NREUM: (3) -->"
      "NREUM: browser_monitoring headers need a transaction name"
  /\
  getBrowserTimingHeader unregistered_agent =
    graceful unregistered_agent "<!-- NREUM: (4) -->"
      "NREUM: browser_monitoring requires valid application_id"
  /\
  getBrowserTimingHeader keyless_agent =
    graceful keyless_agent "<!-- NREUM: (5) -->"
      "NREUM: browser_monitoring requires valid browser_key"
  /\
  exists done,
    snd (getBrowserTimingHeader sample_agent) =
      after sample_agent (current sample_agent) done /\
    existsb is_warning done = false.
Proof.
  pose proof (browser_timing_header_checks no_monitoring_agent) as (H2 & _).
  pose proof (browser_timing_header_checks disabled_agent) as (_ & H0 & _).
  pose proof (browser_timing_header_checks idle_agent) as (_ & _ & H1 & _).
  pose proof (browser_timing_header_checks unnamed_agent) as (_ & _ & _ & H3 & _).
  pose proof (browser_timing_header_checks unregistered_agent) as (_ & _ & _ & _ & H4 & _).
  pose proof (browser_timing_header_checks keyless_agent) as (_ & _ & _ & _ & _ & H5 & _).
  pose proof (browser_timing_header_checks sample_agent) as (_ & _ & _ & _ & _ & _ & H6).
  repeat apply conj.
  - apply H2. reflexivity.
  - apply (H0 disabled_monitoring); reflexivity.
  - apply (H1 sample_monitoring); reflexivity.
  - apply (H3 sample_monitoring unnamed_transaction); reflexivity.
  - apply (H4 sample_monitoring sample_transaction "Custom/Foo"); reflexivity.
  - apply (H5 keyless_monitoring sample_transaction "Custom/Foo" "42"); reflexivity.
  - apply (H6 sample_monitoring sample_transaction "Custom/Foo" "42" "abc123");
      reflexivity.
Defined.

(** *** The success path *)

Lemma json_members_app (o1 o2 : object) :
  json_members (o1 ++ o2)%list = (json_members o1 ++ json_members o2)%list.
Proof.
  induction o1 as [| [k v] o1 IH]; [reflexivity |].
  cbn [json_members app]. destruct (json_value v); cbn [app]; now rewrite IH.
Qed.

Lemma util_format_RUM_STUB (json : string) (loader : value) :
  util_format RUM_STUB [VString json; loader] =
  "<script type='text/javascript'>window.NREUM||(NREUM={});NREUM.info = "
    ++ json ++ "; " ++ ToString loader ++ "</script>".
Proof. reflexivity. Qed.

Lemma JSON_stringify_layout (o : object) :
  json_members o <> [] ->
  JSON_stringify o 0 = "{" ++ join "," (map member_compact (json_members o)) ++ "}" /\
  JSON_stringify o 2 =
    "{" ++ String newline "  "
        ++ join ("," ++ String newline "  ") (map member_indented (json_members o))
        ++ String newline "}".
Proof.
  intros H. unfold JSON_stringify.
  destruct (json_members o) as [| m ms]; [congruence |]. split; reflexivity.
Qed.

(** C8 (amended). When the six checks pass and the license key has a
    character at index [i mod 13] for every octet position [i] of the
    encoded name, [getBrowserTimingHeader] returns exactly
    [<script type='text/javascript'>window.NREUM||(NREUM={});NREUM.info = ]
    + json + [; ] + loaderScript + [</script>], where json is the
    serialization of the record with [agent], [beacon], [errorBeacon],
    [licenseKey] (the browser key), [applicationID], [applicationTime] (the
    timer's answer at the call), [transactionName] (the obfuscated
    [partialName]), [queueTime] and the placeholders [agentToken: null] and
    [ttGuid: ""], which are always serialized; [debug] selects the
    two-space layout of the same members. *)
Theorem browser_timing_header_success
    (w : Agent) (bm : BrowserMonitoring) (t : Transaction)
    (name appid licenseKey : string) :
  browser_monitoring (config w) = Some bm ->
  enable bm = true ->
  current w = Some t ->
  truthy_field (partialName t) = Some name ->
  truthy_field (application_id (config w)) = Some appid ->
  truthy_field (browser_key bm) = Some licenseKey ->
  key_covers (license_key (config w)) (List.length (Buffer_from name)) ->
  exists obfuscated,
    _rumObfuscate name (license_key (config w)) = Return obfuscated /\
    let record : object :=
      [ ("agent", js_agent_file bm);
        ("beacon", beacon bm);
        ("errorBeacon", error_beacon bm);
        ("licenseKey", VString licenseKey);
        ("applicationID", VString appid);
        ("applicationTime", VNumber (timer_getDurationInMillis t));
        ("transactionName", VString obfuscated);
        ("queueTime", VNumber (queueTime t));
        ("agentToken", VNull);
        ("ttGuid", VString "") ]%list in
    let json := JSON_stringify record (if debug bm then 2 else 0) in
    let out :=
      "<script type='text/javascript'>window.NREUM||(NREUM={});NREUM.info = "
        ++ json ++ "; " ++ ToString (js_agent_loader bm) ++ "</script>" in
    getBrowserTimingHeader w =
      (Return out,
       after w (Some t) [Log Trace [VString "generating RUM header"; VString out]])
    /\
    (exists front,
       json_members record =
         (front ++ [("agentToken", "null"); ("ttGuid", String dquote (String dquote ""))])%list)
    /\
    json =
      (if debug bm then
         "{" ++ String newline "  "
             ++ join ("," ++ String newline "  ") (map member_indented (json_members record))
             ++ String newline "}"
       else "{" ++ join "," (map member_compact (json_members record)) ++ "}").
Proof.
  intros Hbm He Ht Hn Ha Hk Hc.
  destruct (rumObfuscate_decodes name _ Hc) as (obf & Hobf & _).
  exists obf. split; [exact Hobf |]. intros record json out.
  assert (Hm : exists front,
             json_members record =
               (front ++ [("agentToken", "null");
                          ("ttGuid", String dquote (String dquote ""))])%list).
  { exists (json_members (firstn 8 record)).
    change record with (firstn 8 record ++ skipn 8 record)%list at 1.
    rewrite json_members_app. reflexivity. }
  repeat apply conj.
  - run_header. rewrite Hbm, He. cbn [negb]. rewrite Ht, Hn, Ha, Hk, Hobf.
    cbn beta iota. rewrite Ht. unfold rum_hash.
    fold record. fold json. rewrite util_format_RUM_STUB. reflexivity.
  - exact Hm.
  - assert (Hne : json_members record <> []).
    { destruct Hm as [front ->]. destruct front; discriminate. }
    destruct (JSON_stringify_layout record Hne) as [H0 H2].
    subst json. destruct (debug bm); assumption.
Qed.

Lemma browser_timing_header_success_witness :
  exists obfuscated,
    _rumObfuscate "Custom/Foo" "0123456789ABC" = Return obfuscated /\
    fst (getBrowserTimingHeader sample_agent) =
      Return
        ("<script type='text/javascript'>window.NREUM||(NREUM={});NREUM.info = "
           ++ JSON_stringify
                (rum_hash sample_monitoring "abc123" "42" 10 obfuscated sample_transaction) 0
           ++ "; " ++ "window.NREUM||(NREUM={});" ++ "</script>").
Proof.
  destruct (browser_timing_header_success sample_agent sample_monitoring
              sample_transaction "Custom/Foo" "42" "abc123"
              eq_refl eq_refl eq_refl eq_refl eq_refl eq_refl
              (or_introl (le_n 13)))
    as (obf & Hobf & Hrun & _).
  exists obf. split; [exact Hobf |]. rewrite Hrun. reflexivity.
Defined.

(** C8, as stated, fails: with a license key of 12 characters and a name
    of 22 the six checks pass, and the call throws instead of returning the
    script text. *)
Lemma header_checks_pass_without_result :
  browser_monitoring (config twelve_key_agent) = Some sample_monitoring /\
  enable sample_monitoring = true /\
  current twelve_key_agent = Some long_named_transaction /\
  truthy_field (partialName long_named_transaction) = Some "Controller/users/index" /\
  truthy_field (application_id (config twelve_key_agent)) = Some "42" /\
  truthy_field (browser_key sample_monitoring) = Some "abc123" /\
  getBrowserTimingHeader twelve_key_agent = (Throw TypeError, twelve_key_agent).
Proof. repeat apply conj; vm_compute; reflexivity. Qed.

Lemma xor_loop_Return_covers (key : string) (bytes out : Buffer) :
  xor_loop bytes 0 key = Return out -> key_covers key (List.length bytes).
Proof.
  intros H. apply key_covers_iff. intros i Hi.
  destruct (xor_loop_pointwise _ _ _ _ H) as [_ Hp].
  destruct (nth_error bytes i) as [b |] eqn:Eb.
  - destruct (Hp _ _ Eb) as (k & Hk & _). cbn [Nat.add] in Hk.
    apply string_at_Some. eauto.
  - apply nth_error_None in Eb. lia.
Qed.

(** When the six checks pass and the license key leaves a position of the
    encoded name without a character, the call throws and logs nothing. *)
Lemma header_throws_without_key_cover
    (w : Agent) (bm : BrowserMonitoring) (t : Transaction)
    (name appid licenseKey : string) :
  browser_monitoring (config w) = Some bm ->
  enable bm = true ->
  current w = Some t ->
  truthy_field (partialName t) = Some name ->
  truthy_field (application_id (config w)) = Some appid ->
  truthy_field (browser_key bm) = Some licenseKey ->
  ~ key_covers (license_key (config w)) (List.length (Buffer_from name)) ->
  getBrowserTimingHeader w = (Throw TypeError, w).
Proof.
  intros Hbm He Ht Hn Ha Hk Hc. run_header.
  rewrite Hbm, He. cbn [negb]. rewrite Ht, Hn, Ha, Hk.
  unfold _rumObfuscate.
  destruct (xor_loop (Buffer_from name) 0 (license_key (config w))) as [out | e] eqn:E.
  - exfalso. apply Hc. exact (xor_loop_Return_covers _ _ _ E).
  - destruct e. reflexivity.
Qed.

(** C4 fails on the code: with the three-character license key ["abc"],
    the name ["Custom/Foo"] and every check passed,
    [getBrowserTimingHeader] throws a [TypeError] out of [_rumObfuscate];
    nothing is logged and no string is returned. *)
Theorem getBrowserTimingHeader_throws :
  getBrowserTimingHeader short_key_agent = (Throw TypeError, short_key_agent).
Proof. vm_compute. reflexivity. Qed.

(* ================================================================== *)
(** * Further properties of [api.js] *)
(* ================================================================== *)

(** ** The obfuscation cipher, continued *)

(** X1. [_rumObfuscate] returns exactly when the key has a character at
    index [i mod 13] for every octet position [i] of the encoded text: a
    key of 13 characters or more, or a key no shorter than the encoded
    text. For every other pair it throws a [TypeError]; in particular the
    empty text is obfuscated (to the empty string) under every key, the
    empty key included, and the empty key obfuscates nothing else. *)
Theorem rumObfuscate_returns_iff (text key : string) :
  ((exists enc, _rumObfuscate text key = Return enc) <->
   key_covers key (List.length (Buffer_from text)))
  /\
  (~ key_covers key (List.length (Buffer_from text)) ->
   _rumObfuscate text key = Throw TypeError)
  /\
  _rumObfuscate "" key = Return ""
  /\
  (text <> "" -> _rumObfuscate text "" = Throw TypeError).
Proof.
  assert (Hthrow : ~ key_covers key (List.length (Buffer_from text)) ->
                   _rumObfuscate text key = Throw TypeError).
  { intros Hc. unfold _rumObfuscate.
    destruct (xor_loop (Buffer_from text) 0 key) as [out | e] eqn:E.
    - exfalso. apply Hc. exact (xor_loop_Return_covers _ _ _ E).
    - destruct e. reflexivity. }
  repeat apply conj.
  - intros [enc H]. unfold _rumObfuscate in H.
    destruct (xor_loop (Buffer_from text) 0 key) as [out | e] eqn:E; [| discriminate].
    exact (xor_loop_Return_covers _ _ _ E).
  - intros H. destruct (rumObfuscate_decodes text key H) as (enc & E & _). eauto.
  - exact Hthrow.
  - reflexivity.
  - intros Hne. destruct text as [| c rest]; [congruence |].
    unfold _rumObfuscate. cbn [Buffer_from].
    destruct (utf8_unit c ++ Buffer_from rest)%list as [| b bs] eqn:E.
    + unfold utf8_unit in E. destruct (N_of_ascii c <? 128)%N; discriminate.
    + reflexivity.
Qed.

Lemma rumObfuscate_returns_iff_witness :
  (exists enc, _rumObfuscate "Custom/Foo" "0123456789ABC" = Return enc) /\
  _rumObfuscate "Custom/Foo" "0123456" = Throw TypeError /\
  _rumObfuscate "Custom/Foo" "" = Throw TypeError.
Proof.
  repeat apply conj.
  - apply (proj1 (rumObfuscate_returns_iff "Custom/Foo" "0123456789ABC")).
    left. apply le_n.
  - apply (proj1 (proj2 (rumObfuscate_returns_iff "Custom/Foo" "0123456"))).
    unfold key_covers. vm_compute. lia.
  - apply (proj2 (proj2 (proj2 (rumObfuscate_returns_iff "Custom/Foo" "")))).
    discriminate.
Defined.

Lemma get_beyond (s : string) :
  forall n, String.length s <= n -> String.get n s = None.
Proof.
  induction s as [| c s IH]; intros n H; [destruct n; reflexivity |].
  destruct n as [| n]; simpl in H; [lia |]. simpl. apply IH. lia.
Qed.

Lemma b64_char_is_b64 (n : N) : is_b64_char (b64_char n) = true.
Proof.
  unfold is_b64_char. destruct (N.ltb_spec n 64) as [H | H].
  - now rewrite b64_value_char.
  - unfold b64_char. rewrite get_beyond; [reflexivity |].
    change (String.length b64_alphabet) with 64. lia.
Qed.

Lemma base64_encode_shape_upto (n : nat) :
  forall bs : Buffer,
    List.length bs <= n ->
    String.length (base64_encode bs) = 4 * ((List.length bs + 2) / 3) /\
    string_forall is_b64_char (base64_encode bs) = true.
Proof.
  induction n as [| n IH]; intros bs Hn.
  - destruct bs; [split; reflexivity | simpl in Hn; lia].
  - destruct bs as [| a [| b [| c rest]]].
    + split; reflexivity.
    + split; [reflexivity |].
      cbn [base64_encode string_forall].
      now rewrite !b64_char_is_b64.
    + split; [reflexivity |].
      cbn [base64_encode string_forall].
      now rewrite !b64_char_is_b64.
    + rewrite base64_encode_group. cbv zeta.
      destruct (IH rest) as [Hl Hc]; [simpl in Hn; lia |].
      split.
      * cbn [String.length List.length]. rewrite Hl.
        replace (S (S (S (List.length rest))) + 2) with (List.length rest + 2 + 1 * 3) by lia.
        rewrite Nat.div_add by discriminate. lia.
      * cbn [string_forall]. now rewrite !b64_char_is_b64, Hc.
Qed.

Lemma json_escape_b64 (c : ascii) : is_b64_char c = true -> json_escape c = String c "".
Proof.
  intros H.
  destruct c as [[] [] [] [] [] [] [] []]; vm_compute in H; try discriminate H; reflexivity.
Qed.

Lemma json_escape_string_b64 (s : string) :
  string_forall is_b64_char s = true -> json_escape_string s = s.
Proof.
  induction s as [| c s IH]; [reflexivity |]. cbn [string_forall json_escape_string].
  intros H. apply andb_prop in H. destruct H as [Hc Hs].
  now rewrite json_escape_b64, IH.
Qed.

(** X2. The text [_rumObfuscate] returns has four characters for every
    three octets of the encoded text (rounded up), all of them letters,
    digits, [+], [/] or [=]; so [JSON.stringify] writes it between the
    quotes as it is, without an escape. *)
Theorem rumObfuscate_output_shape (text key enc : string) :
  _rumObfuscate text key = Return enc ->
  String.length enc = 4 * ((List.length (Buffer_from text) + 2) / 3) /\
  string_forall is_b64_char enc = true /\
  json_quote enc = String dquote (enc ++ String dquote "").
Proof.
  unfold _rumObfuscate. intros H.
  destruct (xor_loop (Buffer_from text) 0 key) as [out | e] eqn:E; [| discriminate].
  injection H as <-.
  destruct (xor_loop_pointwise _ _ _ _ E) as [Hl _].
  destruct (base64_encode_shape_upto _ out (le_n _)) as [Hlen Hch].
  repeat apply conj.
  - now rewrite Hlen, Hl.
  - exact Hch.
  - unfold json_quote. now rewrite json_escape_string_b64.
Qed.

Lemma rumObfuscate_output_shape_witness :
  String.length "c0RBR1tYGXFXVg==" = 4 * ((List.length (Buffer_from "Custom/Foo") + 2) / 3) /\
  string_forall is_b64_char "c0RBR1tYGXFXVg==" = true /\
  json_quote "c0RBR1tYGXFXVg==" = String dquote ("c0RBR1tYGXFXVg==" ++ String dquote "").
Proof.
  apply (rumObfuscate_output_shape "Custom/Foo" "0123456789ABC" "c0RBR1tYGXFXVg==").
  vm_compute. reflexivity.
Defined.

(** X3. Under one key, two texts with the same obfuscated form are the
    same text: the obfuscation loses nothing. *)
Theorem rumObfuscate_injective (text1 text2 key enc : string) :
  _rumObfuscate text1 key = Return enc ->
  _rumObfuscate text2 key = Return enc ->
  text1 = text2.
Proof.
  intros H1 H2.
  assert (C : forall text, _rumObfuscate text key = Return enc ->
                           spec_decode enc key = Some text).
  { intros text H.
    assert (Hc : key_covers key (List.length (Buffer_from text))).
    { unfold _rumObfuscate in H.
      destruct (xor_loop (Buffer_from text) 0 key) as [out | e] eqn:E; [| discriminate].
      exact (xor_loop_Return_covers _ _ _ E). }
    destruct (rumObfuscate_decodes text key Hc) as (enc' & E' & D).
    congruence. }
  pose proof (C _ H1). pose proof (C _ H2). congruence.
Qed.

Lemma rumObfuscate_injective_witness : "Custom/Foo" = "Custom/Foo".
Proof.
  apply (rumObfuscate_injective "Custom/Foo" "Custom/Foo" "0123456789ABC" "c0RBR1tYGXFXVg==");
    vm_compute; reflexivity.
Defined.

(** ** The calls outside a transaction and with a missing name *)

(** X4. Without a transaction, [setControllerName] and
    [setIgnoreTransaction] emit one warning each and change nothing
    ([setControllerName] puts the requested name in the record, whatever the
    name and the action are), and [noticeError] hands the error to the
    collector with no transaction, without a log record. *)
Theorem calls_outside_transaction (w : Agent) (name action v error : value) :
  current w = None ->
  setControllerName name action w =
    (Return tt,
     after w None
       [Log Warn [VString "No transaction found when setting controller to %s."; name]])
  /\
  setIgnoreTransaction v w =
    (Return tt, after w None [Log Warn [VString "No transaction found to ignore."]])
  /\
  noticeError error w = (Return tt, after w None [ErrorsAdd None error]).
Proof.
  intros Ht. repeat apply conj; run_call; unfold emit; rewrite Ht; cbn beta iota;
    rewrite ?Ht; reflexivity.
Qed.

Lemma calls_outside_transaction_witness :
  setControllerName (VString "users") (VString "index") idle_agent =
    (Return tt,
     after idle_agent None
       [Log Warn [VString "No transaction found when setting controller to %s.";
                  VString "users"]])
  /\
  setIgnoreTransaction (VBool true) idle_agent =
    (Return tt, after idle_agent None [Log Warn [VString "No transaction found to ignore."]])
  /\
  noticeError (VString "boom") idle_agent =
    (Return tt, after idle_agent None [ErrorsAdd None (VString "boom")]).
Proof.
  apply (calls_outside_transaction idle_agent (VString "users") (VString "index")
           (VBool true) (VString "boom")).
  reflexivity.
Defined.

(** X5. With a transaction and an empty or missing (falsy) name,
    [setControllerName] writes nothing, whatever the action: it logs one
    error, with the transaction's URL when the URL is known and non-empty,
    and the generic message otherwise. *)
Theorem setControllerName_missing_name (w : Agent) (t : Transaction) (name action : value) :
  current w = Some t ->
  ToBoolean name = false ->
  (forall u, url t = Some u -> u <> "" ->
     setControllerName name action w =
       (Return tt,
        after w (Some t)
          [Log Error
             [VString "Must include name in setControllerName call for URL %s.";
              VString u]]))
  /\
  (url t = None \/ url t = Some "" ->
     setControllerName name action w =
       (Return tt,
        after w (Some t)
          [Log Error [VString "Must include name in setControllerName call."]])).
Proof.
  intros Ht Hn. split.
  - intros u Hu Hne. run_call. rewrite Ht, Hn. cbn [negb].
    rewrite (proj2 (truthy_field_Some (url t) u) (conj Hu Hne)), Ht. reflexivity.
  - intros Hu. run_call. rewrite Ht, Hn. cbn [negb].
    assert (E : truthy_field (url t) = None)
      by (destruct Hu as [-> | ->]; reflexivity).
    rewrite E, Ht. reflexivity.
Qed.

Lemma setControllerName_missing_name_witness :
  setControllerName VUndefined (VString "index") sample_agent =
    (Return tt,
     after sample_agent (Some sample_transaction)
       [Log Error
          [VString "Must include name in setControllerName call for URL %s.";
           VString "/foo"]]).
Proof.
  apply (proj1 (setControllerName_missing_name sample_agent sample_transaction
                  VUndefined (VString "index") eq_refl eq_refl) "/foo").
  - reflexivity.
  - discriminate.
Defined.

(** ** Errors *)

(** X6. Inside a transaction [noticeError] hands the error to the
    collector together with the transaction as it is at that moment, logs
    nothing and changes no field; after [setTransactionName] with a
    non-empty name the transaction handed over carries the new name. *)
Theorem noticeError_reports_transaction (w : Agent) (t : Transaction) (name error : value) :
  current w = Some t ->
  noticeError error w = (Return tt, after w (Some t) [ErrorsAdd (Some t) error])
  /\
  (ToBoolean name = true ->
   (setTransactionName name ;;; noticeError error) w =
     (Return tt,
      after w (Some (set_partialName ("Custom/" ++ ToString name) t))
        [WritePartialName ("Custom/" ++ ToString name);
         ErrorsAdd (Some (set_partialName ("Custom/" ++ ToString name) t)) error])).
Proof.
  intros Ht. split.
  - run_call. unfold emit. rewrite Ht. reflexivity.
  - intros Hn. run_call. unfold emit. rewrite Ht, Hn. cbn [negb]. rewrite Ht. cbn beta iota.
    cbn [current config journal]. rewrite <- app_assoc. reflexivity.
Qed.

Lemma noticeError_reports_transaction_witness :
  noticeError (VString "boom") sample_agent =
    (Return tt,
     after sample_agent (Some sample_transaction)
       [ErrorsAdd (Some sample_transaction) (VString "boom")])
  /\
  (setTransactionName (VString "Foo") ;;; noticeError (VString "boom")) sample_agent =
    (Return tt,
     after sample_agent (Some (set_partialName "Custom/Foo" sample_transaction))
       [WritePartialName "Custom/Foo";
        ErrorsAdd (Some (set_partialName "Custom/Foo" sample_transaction))
          (VString "boom")]).
Proof.
  pose proof (noticeError_reports_transaction sample_agent sample_transaction
                (VString "Foo") (VString "boom") eq_refl) as [H1 H2].
  split; [exact H1 | exact (H2 eq_refl)].
Defined.

(** ** What the calls never do *)

(** X7. Six of the seven calls never throw: for every agent and all
    arguments [setTransactionName], [setControllerName],
    [setIgnoreTransaction], [noticeError], [addNamingRule] and
    [addIgnoringRule] return, and leave the configuration as it is; the
    last three leave the transaction as it is too. *)
Theorem calls_never_throw (w : Agent) (name action v error : value) (p : pattern) :
  (exists w', setTransactionName name w = (Return tt, w') /\ config w' = config w) /\
  (exists w', setControllerName name action w = (Return tt, w') /\ config w' = config w) /\
  (exists w', setIgnoreTransaction v w = (Return tt, w') /\ config w' = config w) /\
  (exists w', noticeError error w = (Return tt, w') /\
              config w' = config w /\ current w' = current w) /\
  (exists w', addNamingRule p name w = (Return tt, w') /\
              config w' = config w /\ current w' = current w) /\
  (exists w', addIgnoringRule p w = (Return tt, w') /\
              config w' = config w /\ current w' = current w).
Proof.
  repeat apply conj; run_call; unfold emit.
  - destruct (current w) as [t |] eqn:Ht; cbn beta iota.
    + destruct (ToBoolean name); cbn [negb].
      * rewrite Ht. eauto.
      * destruct (truthy_field (url t)); eauto.
    + eauto.
  - destruct (current w) as [t |] eqn:Ht; cbn beta iota.
    + destruct (ToBoolean name); cbn [negb].
      * rewrite Ht. eauto.
      * destruct (truthy_field (url t)); eauto.
    + eauto.
  - destruct (current w) as [t |] eqn:Ht; cbn beta iota.
    + rewrite Ht. eauto.
    + eauto.
  - eauto.
  - destruct (ToBoolean name); cbn [negb]; eauto.
  - destruct (pattern_ToBoolean p); cbn [negb]; eauto.
Qed.

(** ** The browser timing header, continued *)


(** Settles a failed check: [steps] rewrites with the checks made so far. *)
Ltac fails_by steps :=
  left; do 2 eexists; split;
  [| run_header; steps; cbn beta iota;
     match goal with
     | H : current _ = _ |- _ => rewrite ?H
     | _ => idtac
     end; reflexivity];
  vm_compute; tauto.

(** The three ways a call of [getBrowserTimingHeader] ends. *)
Lemma header_cases (w : Agent) :
  (exists comment message,
     In comment failure_comments /\
     getBrowserTimingHeader w = graceful w comment message)
  \/
  (exists bm t name appid licenseKey,
     checks_pass w bm t name appid licenseKey /\
     ((exists obf,
         _rumObfuscate name (license_key (config w)) = Return obf /\
         let out :=
           script_of
             (JSON_stringify
                (rum_hash bm licenseKey appid (timer_getDurationInMillis t) obf t)
                (if debug bm then 2 else 0))
             (js_agent_loader bm) in
         getBrowserTimingHeader w =
           (Return out,
            after w (current w) [Log Trace [VString "generating RUM header"; VString out]]))
      \/
      (~ key_covers (license_key (config w)) (List.length (Buffer_from name)) /\
       getBrowserTimingHeader w = (Throw TypeError, w)))).
Proof.
  unfold checks_pass.
  destruct (browser_monitoring (config w)) as [bm |] eqn:Hbm.
  2:{ fails_by ltac:(rewrite Hbm). }
  destruct (enable bm) eqn:He.
  2:{ fails_by ltac:(rewrite Hbm, He). }
  destruct (current w) as [t |] eqn:Ht.
  2:{ fails_by ltac:(rewrite Hbm, He; cbn [negb]; rewrite Ht). }
  destruct (truthy_field (partialName t)) as [name |] eqn:Hn.
  2:{ fails_by ltac:(rewrite Hbm, He; cbn [negb]; rewrite Ht, Hn). }
  destruct (truthy_field (application_id (config w))) as [appid |] eqn:Ha.
  2:{ fails_by ltac:(rewrite Hbm, He; cbn [negb]; rewrite Ht, Hn, Ha). }
  destruct (truthy_field (browser_key bm)) as [licenseKey |] eqn:Hk.
  2:{ fails_by ltac:(rewrite Hbm, He; cbn [negb]; rewrite Ht, Hn, Ha, Hk). }
  right. exists bm, t, name, appid, licenseKey. split; [tauto |].
  destruct (_rumObfuscate name (license_key (config w))) as [obf | e] eqn:Ho.
  - left. exists obf. split; [reflexivity |]. cbv zeta.
    run_header. rewrite Hbm, He. cbn [negb]. rewrite Ht, Hn, Ha, Hk, Ho.
    cbn beta iota. rewrite ?Ht, util_format_RUM_STUB. reflexivity.
  - right. split.
    + intros Hc. destruct (rumObfuscate_decodes name _ Hc) as (enc & E & _). congruence.
    + run_header. rewrite Hbm, He. cbn [negb]. rewrite Ht, Hn, Ha, Hk, Ho.
      destruct e. reflexivity.
Qed.

(** X8. [getBrowserTimingHeader] throws exactly when the six checks pass
    and the license key leaves an octet of the encoded name without a
    character at index [i mod 13]; the journal is then as before. With a
    license key of 13 characters or more it returns a string for every
    configuration and transaction. *)
Theorem header_throws_iff (w : Agent) :
  ((exists e w', getBrowserTimingHeader w = (Throw e, w')) <->
   (exists bm t name appid licenseKey,
      checks_pass w bm t name appid licenseKey /\
      ~ key_covers (license_key (config w)) (List.length (Buffer_from name))))
  /\
  (forall e w', getBrowserTimingHeader w = (Throw e, w') -> e = TypeError /\ w' = w)
  /\
  (13 <= String.length (license_key (config w)) ->
   exists s w', getBrowserTimingHeader w = (Return s, w')).
Proof.
  repeat apply conj.
  - intros (e & w' & H).
    destruct (header_cases w) as [(c & m & _ & E) | (bm & t & name & appid & lk & Hp & [(obf & _ & E) | [Hc E]])].
    + unfold graceful in E. congruence.
    + cbv zeta in E. congruence.
    + eauto 10.
  - intros (bm & t & name & appid & lk & Hp & Hc).
    destruct Hp as (Hbm & He & Ht & Hn & Ha & Hk).
    exists TypeError, w.
    exact (header_throws_without_key_cover w bm t name appid lk Hbm He Ht Hn Ha Hk Hc).
  - intros e w' H.
    destruct (header_cases w) as [(c & m & _ & E) | (bm & t & name & appid & lk & Hp & [(obf & _ & E) | [Hc E]])].
    + unfold graceful in E. congruence.
    + cbv zeta in E. congruence.
    + rewrite E in H. injection H as <- <-. split; reflexivity.
  - intros Hlen.
    destruct (header_cases w) as [(c & m & _ & E) | (bm & t & name & appid & lk & Hp & [(obf & _ & E) | [Hc E]])].
    + unfold graceful in E. eauto.
    + cbv zeta in E. eauto.
    + exfalso. apply Hc. left. exact Hlen.
Qed.

Lemma header_throws_iff_witness :
  (exists e w', getBrowserTimingHeader twelve_key_agent = (Throw e, w')) /\
  (exists s w', getBrowserTimingHeader sample_agent = (Return s, w')).
Proof.
  split.
  - apply (proj2 (proj1 (header_throws_iff twelve_key_agent))).
    exists sample_monitoring, long_named_transaction, "Controller/users/index", "42", "abc123".
    split.
    + repeat split.
    + unfold key_covers. vm_compute. lia.
  - apply (proj2 (proj2 (header_throws_iff sample_agent))). apply le_n.
Defined.




(** ** How the calls compose *)

(** The header's result is a function of the configuration and of the
    transaction's name, queue time and timer. *)
Lemma header_result_depends (w1 w2 : Agent) :
  config w1 = config w2 ->
  (current w1 = None <-> current w2 = None) ->
  (forall t1 t2, current w1 = Some t1 -> current w2 = Some t2 ->
     partialName t1 = partialName t2 /\ queueTime t1 = queueTime t2 /\
     timer_getDurationInMillis t1 = timer_getDurationInMillis t2) ->
  fst (getBrowserTimingHeader w1) = fst (getBrowserTimingHeader w2).
Proof.
  intros Hc Hnone Hsame. run_header. unfold emit. rewrite <- Hc.
  destruct (browser_monitoring (config w1)) as [bm |]; [| reflexivity].
  destruct (enable bm); [| reflexivity]. cbn [negb].
  destruct (current w1) as [t1 |] eqn:H1, (current w2) as [t2 |] eqn:H2.
  - destruct (Hsame t1 t2 eq_refl eq_refl) as (Hn & Hq & Ht).
    unfold rum_hash. rewrite <- Hn, <- Hq, <- Ht.
    destruct (truthy_field (partialName t1)); [| reflexivity].
    destruct (truthy_field (application_id (config w1))); [| reflexivity].
    destruct (truthy_field (browser_key bm)); [| reflexivity].
    destruct (_rumObfuscate s (license_key (config w1))); reflexivity.
  - destruct Hnone as [_ Hn]. specialize (Hn eq_refl). discriminate.
  - destruct Hnone as [Hn _]. specialize (Hn eq_refl). discriminate.
  - reflexivity.
Qed.

Lemma setIgnoreTransaction_run (w : Agent) (v : value) :
  setIgnoreTransaction v w =
    (Return tt,
     after w (option_map (set_forceIgnore v) (current w))
       [match current w with
        | Some _ => WriteForceIgnore v
        | None => Log Warn [VString "No transaction found to ignore."]
        end]).
Proof.
  run_call. destruct (current w) as [t |] eqn:Ht; cbn beta iota; rewrite Ht; reflexivity.
Qed.

(** X10. Ignoring the transaction does not touch the browser timing
    header: after [setIgnoreTransaction], with any argument,
    [getBrowserTimingHeader] gives what it gives without it. *)
Theorem header_unaffected_by_ignore (w : Agent) (v : value) :
  fst ((setIgnoreTransaction v ;;; getBrowserTimingHeader) w) =
  fst (getBrowserTimingHeader w).
Proof.
  unfold bind at 1. rewrite setIgnoreTransaction_run.
  apply header_result_depends; cbn [after config current].
  - reflexivity.
  - destruct (current w); cbn [option_map]; split; congruence.
  - intros t1 t2 H1 H2. rewrite H2 in H1. cbn [option_map] in H1.
    injection H1 as <-. repeat split.
Qed.

Lemma setTransactionName_run (w : Agent) (t : Transaction) (name : value) :
  current w = Some t ->
  ToBoolean name = true ->
  setTransactionName name w =
    (Return tt,
     after w (Some (set_partialName ("Custom/" ++ ToString name) t))
       [WritePartialName ("Custom/" ++ ToString name)]).
Proof.
  intros Ht Hn. run_call. rewrite Ht, Hn. cbn [negb]. rewrite Ht. reflexivity.
Qed.

(** X11. Naming the transaction makes the header use the new name: in an
    agent whose monitoring section is enabled and has a browser key, with
    an application id, a license key of 13 characters or more and a
    transaction (named or not), [setTransactionName] with a non-empty name
    followed by [getBrowserTimingHeader] returns the script whose
    [transactionName] is the obfuscated ["Custom/" + name], which decodes
    back to that name. *)
Theorem header_after_naming
    (w : Agent) (bm : BrowserMonitoring) (t : Transaction) (name : value)
    (appid licenseKey : string) :
  browser_monitoring (config w) = Some bm ->
  enable bm = true ->
  current w = Some t ->
  truthy_field (application_id (config w)) = Some appid ->
  truthy_field (browser_key bm) = Some licenseKey ->
  13 <= String.length (license_key (config w)) ->
  ToBoolean name = true ->
  exists obf,
    _rumObfuscate ("Custom/" ++ ToString name) (license_key (config w)) = Return obf /\
    spec_decode obf (license_key (config w)) = Some ("Custom/" ++ ToString name) /\
    fst ((setTransactionName name ;;; getBrowserTimingHeader) w) =
      Return
        (script_of
           (JSON_stringify
              [ ("agent", js_agent_file bm);
                ("beacon", beacon bm);
                ("errorBeacon", error_beacon bm);
                ("licenseKey", VString licenseKey);
                ("applicationID", VString appid);
                ("applicationTime", VNumber (timer_getDurationInMillis t));
                ("transactionName", VString obf);
                ("queueTime", VNumber (queueTime t));
                ("agentToken", VNull);
                ("ttGuid", VString "") ]%list
              (if debug bm then 2 else 0))
           (js_agent_loader bm)).
Proof.
  intros Hbm He Ht Ha Hk Hlen Hn.
  destruct (rumObfuscate_decodes ("Custom/" ++ ToString name) (license_key (config w)))
    as (obf & Ho & Hd); [left; exact Hlen |].
  exists obf. split; [exact Ho |]. split; [exact Hd |].
  assert (Hp : truthy_field (Some ("Custom/" ++ ToString name)) =
               Some ("Custom/" ++ ToString name)) by reflexivity.
  unfold bind at 1. rewrite (setTransactionName_run w t name Ht Hn).
  remember ("Custom/" ++ ToString name) as p eqn:Ep.
  run_header. unfold emit. cbn [config current journal].
  rewrite Hbm, He. cbn [negb set_partialName partialName config current journal].
  rewrite Hp, Ha, Hk, Ho. cbn beta iota. rewrite util_format_RUM_STUB. reflexivity.
Qed.

Lemma header_after_naming_witness :
  exists obf,
    _rumObfuscate "Custom/Bar" "0123456789ABC" = Return obf /\
    spec_decode obf "0123456789ABC" = Some "Custom/Bar" /\
    fst ((setTransactionName (VString "Bar") ;;; getBrowserTimingHeader) unnamed_agent) =
      Return
        (script_of
           (JSON_stringify
              (rum_hash sample_monitoring "abc123" "42" 10 obf unnamed_transaction) 0)
           (js_agent_loader sample_monitoring)).
Proof.
  exact (header_after_naming unnamed_agent sample_monitoring unnamed_transaction
           (VString "Bar") "42" "abc123" eq_refl eq_refl eq_refl eq_refl eq_refl
           (le_n 13) eq_refl).
Defined.

(** X12. The last name written is the one that stays: with a transaction,
    a successful [setTransactionName] or [setControllerName] leaves the
    transaction as if the naming call before it, of either kind and with
    any arguments, had not been made. *)
Theorem last_naming_call_wins (w : Agent) (t : Transaction) (n1 a1 n2 a2 : value) :
  current w = Some t ->
  ToBoolean n2 = true ->
  current (snd ((setTransactionName n1 ;;; setTransactionName n2) w)) =
    current (snd (setTransactionName n2 w))
  /\
  current (snd ((setControllerName n1 a1 ;;; setTransactionName n2) w)) =
    current (snd (setTransactionName n2 w))
  /\
  current (snd ((setTransactionName n1 ;;; setControllerName n2 a2) w)) =
    current (snd (setControllerName n2 a2 w))
  /\
  current (snd ((setControllerName n1 a1 ;;; setControllerName n2 a2) w)) =
    current (snd (setControllerName n2 a2 w)).
Proof.
  intros Ht Hn.
  repeat apply conj; run_call; unfold emit; rewrite Ht, Hn; cbn [negb];
    destruct (ToBoolean n1); cbn [negb];
    try destruct (truthy_field (url t)); cbn beta iota; cbn [snd current];
    rewrite ?Ht; cbn beta iota; cbn [snd current]; reflexivity.
Qed.

Lemma last_naming_call_wins_witness :
  current (snd ((setControllerName (VString "users") (VString "index") ;;;
                 setTransactionName (VString "Bar")) sample_agent)) =
    current (snd (setTransactionName (VString "Bar") sample_agent)).
Proof.
  exact (proj1 (proj2 (last_naming_call_wins sample_agent sample_transaction
                         (VString "users") (VString "index") (VString "Bar") VUndefined
                         eq_refl eq_refl))).
Defined.

Lemma bind_returned {A B} (m : M A) (k : A -> M B) (w : Agent) (a : A) :
  fst (m w) = Return a -> bind m k w = k a (snd (m w)).
Proof.
  unfold bind. destruct (m w) as [[a' | e] w']; cbn [fst snd]; intros H;
    [injection H as -> | discriminate]. reflexivity.
Qed.

Lemma setTransactionName_effect (w : Agent) (name : value) :
  fst (setTransactionName name w) = Return tt /\
  current (snd (setTransactionName name w)) =
    option_map
      (fun t => if ToBoolean name then set_partialName ("Custom/" ++ ToString name) t else t)
      (current w).
Proof.
  run_call. destruct (current w) as [t |] eqn:Ht; cbn beta iota.
  - destruct (ToBoolean name); cbn [negb].
    + rewrite Ht. split; reflexivity.
    + destruct (truthy_field (url t)); cbn [fst snd current]; rewrite Ht; split; reflexivity.
  - cbn [fst snd current option_map]. rewrite Ht. split; reflexivity.
Qed.

(** X13. Naming and ignoring do not interfere: [setTransactionName] and
    [setIgnoreTransaction] leave the same transaction in either order, for
    every agent and all arguments; it has the argument of
    [setIgnoreTransaction] in [forceIgnore], and in [partialName] the new
    name, or the old one when the name given was empty or missing. *)
Theorem naming_and_ignoring_commute (w : Agent) (name v : value) :
  current (snd ((setTransactionName name ;;; setIgnoreTransaction v) w)) =
  current (snd ((setIgnoreTransaction v ;;; setTransactionName name) w))
  /\
  (forall t t',
     current w = Some t ->
     current (snd ((setTransactionName name ;;; setIgnoreTransaction v) w)) = Some t' ->
     forceIgnore t' = v /\
     partialName t' =
       (if ToBoolean name then Some ("Custom/" ++ ToString name) else partialName t)).
Proof.
  assert (L : current (snd ((setTransactionName name ;;; setIgnoreTransaction v) w)) =
              option_map (set_forceIgnore v)
                (option_map
                   (fun t => if ToBoolean name
                             then set_partialName ("Custom/" ++ ToString name) t else t)
                   (current w))).
  { destruct (setTransactionName_effect w name) as [Hr Hc].
    rewrite (bind_returned _ _ w tt Hr), setIgnoreTransaction_run.
    cbn [snd after current]. now rewrite Hc. }
  split.
  - rewrite L.
    assert (Hr : fst (setIgnoreTransaction v w) = Return tt)
      by (rewrite setIgnoreTransaction_run; reflexivity).
    rewrite (bind_returned _ _ w tt Hr).
    destruct (setTransactionName_effect (snd (setIgnoreTransaction v w)) name) as [_ Hc].
    rewrite Hc, setIgnoreTransaction_run. cbn [snd after current].
    destruct (current w) as [t |]; [| reflexivity]. cbn [option_map].
    destruct (ToBoolean name); reflexivity.
  - intros t t' Ht H. rewrite L, Ht in H. cbn [option_map] in H.
    injection H as <-. destruct (ToBoolean name); split; reflexivity.
Qed.

Lemma naming_and_ignoring_commute_witness :
  forceIgnore (set_forceIgnore (VBool true) (set_partialName "Custom/Bar" sample_transaction))
    = VBool true /\
  partialName (set_forceIgnore (VBool true) (set_partialName "Custom/Bar" sample_transaction))
    = Some "Custom/Bar".
Proof.
  exact (proj2 (naming_and_ignoring_commute sample_agent (VString "Bar") (VBool true))
           sample_transaction
           (set_forceIgnore (VBool true) (set_partialName "Custom/Bar" sample_transaction))
           eq_refl eq_refl).
Defined.

(** ** The members of the header's JSON *)




